(** * Role-scoped user service: authentication, mapping and access control

    A shallow embedding of the TypeScript sources:
    - the domain schemas [BaseUser], [FullUser], [UserWithPassword],
      [AuthContext], [UpdateUserProfile], [UpdateSensitiveData];
    - [UserMapper] (row to domain model);
    - [UserRepositoryLive] (storage access through the query builder);
    - [UserServiceLive] (authorization rules);
    - [AuthServiceLive] (login);
    - [verifyJwt], [authMiddleware] and [withAuth];
    - the HTTP handlers of [UserHandlersLive].

    An [Effect.Effect<A, E, R>] is a function from the state of the outside
    world to an exit value and the next state.  The world holds the users
    table, a clock, the environment variables and a log of the statements
    sent to the storage engine. *)

From Stdlib Require Import List String Ascii ZArith NArith Bool Lia Permutation.
Import ListNotations.

Local Open Scope string_scope.
Local Open Scope Z_scope.

(* ------------------------------------------------------------------ *)
(** ** JavaScript primitives used by the sources *)
(* ------------------------------------------------------------------ *)

Module Js.

(** Strings are sequences of code units; the embedding keeps the code units
    below 256, which [ascii] holds. *)

Definition code (c : ascii) : N := N_of_ascii c.

(** [\s] restricted to code units below 256: TAB, LF, VT, FF, CR, SPACE and
    NO-BREAK SPACE.  The same set is what [parseFloat] skips. *)
Definition is_space (c : ascii) : bool :=
  let n := code c in
  ((9 <=? n) && (n <=? 13))%N || (n =? 32)%N || (n =? 160)%N.

(** [\d] *)
Definition is_digit (c : ascii) : bool :=
  let n := code c in ((48 <=? n) && (n <=? 57))%N.

(** [[0-9a-f]] under the [i] flag *)
Definition is_hex (c : ascii) : bool :=
  let n := code c in
  is_digit c || ((97 <=? n) && (n <=? 102))%N || ((65 <=? n) && (n <=? 70))%N.

Definition is_char (k : ascii) (c : ascii) : bool := Ascii.eqb k c.

(** *** Regular expressions

    The patterns of the schemas are anchored at both ends ([^...$], no [m]
    flag), so a string is accepted when the whole of it is in the language.
    Matching is by derivatives. *)

Inductive Regex : Type :=
| Void : Regex
| Eps : Regex
| Class (p : ascii -> bool) : Regex
| Cat (r1 r2 : Regex) : Regex
| Alt (r1 r2 : Regex) : Regex
| Star (r : Regex) : Regex.

Fixpoint nullable (r : Regex) : bool :=
  match r with
  | Void => false
  | Eps => true
  | Class _ => false
  | Cat r1 r2 => nullable r1 && nullable r2
  | Alt r1 r2 => nullable r1 || nullable r2
  | Star _ => true
  end.

(** Smart constructors keep the derivatives small. *)
Definition cat (r1 r2 : Regex) : Regex :=
  match r1, r2 with
  | Void, _ => Void
  | _, Void => Void
  | Eps, _ => r2
  | _, Eps => r1
  | _, _ => Cat r1 r2
  end.

Definition alt (r1 r2 : Regex) : Regex :=
  match r1, r2 with
  | Void, _ => r2
  | _, Void => r1
  | _, _ => Alt r1 r2
  end.

Fixpoint deriv (c : ascii) (r : Regex) : Regex :=
  match r with
  | Void => Void
  | Eps => Void
  | Class p => if p c then Eps else Void
  | Cat r1 r2 =>
      if nullable r1
      then alt (cat (deriv c r1) r2) (deriv c r2)
      else cat (deriv c r1) r2
  | Alt r1 r2 => alt (deriv c r1) (deriv c r2)
  | Star r1 => cat (deriv c r1) (Star r1)
  end.

Fixpoint matches (r : Regex) (s : string) : bool :=
  match s with
  | EmptyString => nullable r
  | String c s' => matches (deriv c r) s'
  end.

(** [r+] and [r{n}] *)
Definition plus (r : Regex) : Regex := Cat r (Star r).

Fixpoint times (n : nat) (r : Regex) : Regex :=
  match n with
  | O => Eps
  | S n' => Cat r (times n' r)
  end.

(** *** [String.prototype.replace] with a string pattern

    Only the first occurrence of the pattern is replaced. *)

Fixpoint strip_prefix (p s : string) : option string :=
  match p, s with
  | EmptyString, _ => Some s
  | String a p', String b s' => if Ascii.eqb a b then strip_prefix p' s' else None
  | String _ _, EmptyString => None
  end.

Fixpoint replace (pattern replacement s : string) : string :=
  match strip_prefix pattern s with
  | Some rest => replacement ++ rest
  | None =>
      match s with
      | EmptyString => EmptyString
      | String c s' => String c (replace pattern replacement s')
      end
  end.

(** Truthiness of a string: only the empty string is falsy. *)
Definition truthy (s : string) : bool :=
  match s with
  | EmptyString => false
  | String _ _ => true
  end.

(** *** Numbers

    A number is a binary64 value: [NaN], an infinity, or a finite value
    [(-1)^negative * significand * 2^exponent] in its one normal form: the
    significand is below [2^53], it is at least [2^52] unless the exponent is
    the least one, [-1074], and the exponent is at most [971].  Both zeros
    have significand 0 and exponent [-1074]. *)

Inductive Number : Type :=
| NaN : Number
| Infinity (negative : bool) : Number
| Finite (negative : bool) (significand : N) (exponent : Z) : Number.

(** The number of a decimal literal [mantissa * 10^exponent]: the binary64
    value nearest to it, ties to the even significand; a literal at or above
    [2^1024 - 2^970] is an infinity and a literal at or below [2^-1075] is a
    zero. *)
Definition Decimal (negative : bool) (mantissa : N) (exponent : Z) : Number :=
  if (mantissa =? 0)%N then Finite negative 0 (-1074)
  else
    let num := Z.of_N mantissa * 10 ^ Z.max exponent 0 in
    let den := 10 ^ Z.max (- exponent) 0 in
    (* [2^k <= num / den < 2^(k+1)] *)
    let k0 := Z.log2 num - Z.log2 den in
    let k := if num * 2 ^ Z.max (- k0) 0 <? den * 2 ^ Z.max k0 0
             then k0 - 1 else k0 in
    (* the exponent of the last place *)
    let q := Z.max (k - 52) (-1074) in
    let a := num * 2 ^ Z.max (- q) 0 in
    let b := den * 2 ^ Z.max q 0 in
    let n := a / b in
    let r := a mod b in
    let rounded :=
      if b <? 2 * r then n + 1
      else if 2 * r =? b then (if Z.odd n then n + 1 else n)
      else n in
    let '(significand, e) :=
      if rounded =? 2 ^ 53 then (2 ^ 52, q + 1) else (rounded, q) in
    if 971 <? e then Infinity negative
    else Finite negative (Z.to_N significand) e.

(** [x >= 0]: false on [NaN]; true on both zeros. *)
Definition ge_zero (x : Number) : bool :=
  match x with
  | NaN => false
  | Infinity negative => negb negative
  | Finite negative significand _ => negb negative || (significand =? 0)%N
  end.

(** *** [parseFloat]

    Leading white space is dropped, then the longest prefix that is a
    [StrDecimalLiteral] is read; what follows the prefix is ignored.  No such
    prefix gives [NaN]; otherwise the result is the number of the literal
    read, rounded as [Decimal] rounds. *)

Fixpoint skip_space (s : string) : string :=
  match s with
  | String c s' => if is_space c then skip_space s' else s
  | EmptyString => s
  end.

Definition digit_value (c : ascii) : N := (code c - 48)%N.

(** Reads a run of decimal digits on top of the accumulator [acc]; returns
    the value, the number of digits read and the rest of the string. *)
Fixpoint read_digits (s : string) (acc : N) (count : nat) : N * nat * string :=
  match s with
  | String c s' =>
      if is_digit c
      then read_digits s' (10 * acc + digit_value c)%N (S count)
      else (acc, count, s)
  | EmptyString => (acc, count, s)
  end.

(** [ExponentPart]: [e] or [E], an optional sign, at least one digit.  When
    the part is incomplete nothing is consumed and the exponent is 0. *)
Definition read_exponent (s : string) : Z :=
  match s with
  | String c s' =>
      if is_char "e" c || is_char "E" c then
        let '(negative, s'') :=
          match s' with
          | String "-" t => (true, t)
          | String "+" t => (false, t)
          | _ => (false, s')
          end in
        let '(v, count, _) := read_digits s'' 0%N O in
        match count with
        | O => 0
        | S _ => if negative then - Z.of_N v else Z.of_N v
        end
      else 0
  | EmptyString => 0
  end.

Definition read_unsigned (negative : bool) (s : string) : Number :=
  match strip_prefix "Infinity" s with
  | Some _ => Infinity negative
  | None =>
      let '(int_part, int_count, rest) := read_digits s 0%N O in
      match rest with
      | String "." rest' =>
          let '(mantissa, frac_count, rest'') := read_digits rest' int_part O in
          match int_count, frac_count with
          | O, O => NaN
          | _, _ =>
              Decimal negative mantissa (read_exponent rest'' - Z.of_nat frac_count)
          end
      | _ =>
          match int_count with
          | O => NaN
          | S _ => Decimal negative int_part (read_exponent rest)
          end
      end
  end.

Definition parseFloat (s : string) : Number :=
  match skip_space s with
  | String "-" s' => read_unsigned true s'
  | String "+" s' => read_unsigned false s'
  | s' => read_unsigned false s'
  end.

End Js.

(* ------------------------------------------------------------------ *)
(** ** The storage engine's [uuid] *)
(* ------------------------------------------------------------------ *)

(** The [id] column is a [uuid].  The engine reads the text of a uuid as
    follows: an optional opening brace; sixteen bytes, each of two
    hexadecimal digits in either case; an optional dash after every second
    byte but the last; the closing brace when there was an opening one; and
    nothing after that.  It compares uuids by their bytes, so two spellings
    of one uuid match. *)
Module Uuid.

Definition hex_value (c : ascii) : option N :=
  let n := Js.code c in
  if Js.is_digit c then Some (n - 48)%N
  else if ((97 <=? n) && (n <=? 102))%N then Some (n - 87)%N
  else if ((65 <=? n) && (n <=? 70))%N then Some (n - 55)%N
  else None.

(** Reads [count] bytes, the next of which has index [i]. *)
Fixpoint read_bytes (count i : nat) (s : string) : option (list N * string) :=
  match count with
  | O => Some ([], s)
  | S count' =>
      match s with
      | String a (String b s') =>
          match hex_value a, hex_value b with
          | Some x, Some y =>
              let s'' :=
                match s' with
                | String "-" t => if Nat.odd i && (i <? 15)%nat then t else s'
                | _ => s'
                end in
              match read_bytes count' (S i) s'' with
              | Some (bytes, rest) => Some ((16 * x + y)%N :: bytes, rest)
              | None => None
              end
          | _, _ => None
          end
      | _ => None
      end
  end.

Definition parse (s : string) : option (list N) :=
  let '(braces, body) :=
    match s with
    | String "{" t => (true, t)
    | _ => (false, s)
    end in
  match read_bytes 16 0 body with
  | Some (bytes, rest) =>
      let closed :=
        if braces
        then match rest with
             | String "}" t => Some t
             | _ => None
             end
        else Some rest in
      match closed with
      | Some EmptyString => Some bytes
      | _ => None
      end
  | None => None
  end.

Fixpoint bytes_eqb (x y : list N) : bool :=
  match x, y with
  | [], [] => true
  | a :: x', b :: y' => (a =? b)%N && bytes_eqb x' y'
  | _, _ => false
  end.

(** Two texts denote the same uuid.  A text the engine cannot read as a uuid
    makes a statement the engine refuses, which is a world with
    [engine_ok = false]; here such a text matches itself only. *)
Definition same (a b : string) : bool :=
  match parse a, parse b with
  | Some x, Some y => bytes_eqb x y
  | None, None => String.eqb a b
  | _, _ => false
  end.

End Uuid.

(* ------------------------------------------------------------------ *)
(** ** Errors and exit values *)
(* ------------------------------------------------------------------ *)

(** The tagged errors of [AppErrors.ts] and [AuthContext.ts], and the
    [ParseError] of a failed [Schema.decodeUnknown], whose content no caller
    reads.  The [cause] of a [DatabaseError] is opaque as well and is left
    out.
    [UnauthorizedObject] is the plain object [{ _tag: 'Unauthorized', message }]
    that [withAuth] fails with. *)
Inductive AppError : Type :=
| AuthenticationError (message : string)
| UnauthorizedError (message : string)
| UnauthorizedObject (message : string)
| ForbiddenError (message : string)
| NotFoundError (entity id : string)
| DatabaseError (message : string)
| ValidationError (message : string)
| ParseError.

(** How an effect ends: with a value, with a typed failure, or with a defect
    ([Effect.orDie]). *)
Inductive Exit (A : Type) : Type :=
| Success (a : A)
| Failure (e : AppError)
| Die.

Arguments Success {A} a.
Arguments Failure {A} e.
Arguments Die {A}.

Module ExitM.

Definition bind {A B : Type} (x : Exit A) (k : A -> Exit B) : Exit B :=
  match x with
  | Success a => k a
  | Failure e => Failure e
  | Die => Die
  end.

(** The effect [Schema.decodeUnknown(S)(input)], from the decoder's result. *)
Definition decodeUnknown {A : Type} (x : option A) : Exit A :=
  match x with
  | Some a => Success a
  | None => Failure ParseError
  end.

(** [Effect.mapError] *)
Definition mapError {A : Type} (f : AppError -> AppError) (x : Exit A) : Exit A :=
  match x with
  | Failure e => Failure (f e)
  | other => other
  end.

(** [Effect.all] on an array of effects, default options: the effects run in
    order and the first failure ends the run. *)
Fixpoint all {A : Type} (xs : list (Exit A)) : Exit (list A) :=
  match xs with
  | [] => Success []
  | x :: rest =>
      bind x (fun a => bind (all rest) (fun others => Success (a :: others)))
  end.

End ExitM.

(* ------------------------------------------------------------------ *)
(** ** Domain schemas ([role.schema.ts], the user schema, [AuthContext]) *)
(* ------------------------------------------------------------------ *)

(** [Schema.DateFromSelf] accepts every [Date]; a date is its time value. *)
Definition Date : Type := Z.

(** [RoleName = Schema.Literal('admin', 'user')] *)
Inductive RoleName : Type := admin | user.

Definition RoleName_eqb (a b : RoleName) : bool :=
  match a, b with
  | admin, admin => true
  | user, user => true
  | _, _ => false
  end.

Definition RoleName_encode (r : RoleName) : string :=
  match r with
  | admin => "admin"
  | user => "user"
  end.

Definition RoleName_decode (s : string) : option RoleName :=
  if String.eqb s "admin" then Some admin
  else if String.eqb s "user" then Some user
  else None.

Module Patterns.
Import Js.

Definition not_space_or_at (c : ascii) : bool := negb (is_space c || is_char "@" c).

(** [/^[^\s@]+@[^\s@]+\.[^\s@]+$/] *)
Definition email : Regex :=
  Cat (plus (Class not_space_or_at))
    (Cat (Class (is_char "@"))
       (Cat (plus (Class not_space_or_at))
          (Cat (Class (is_char "."))
             (plus (Class not_space_or_at))))).

(** [/^\d{3}-\d{2}-\d{4}$/] *)
Definition ssn : Regex :=
  Cat (times 3 (Class is_digit))
    (Cat (Class (is_char "-"))
       (Cat (times 2 (Class is_digit))
          (Cat (Class (is_char "-"))
             (times 4 (Class is_digit))))).

(** [Schema.UUID]:
    [/^[0-9a-f]{8}-[0-9a-f]{4}-[0-9a-f]{4}-[0-9a-f]{4}-[0-9a-f]{12}$/i] *)
Definition uuid : Regex :=
  let dash := Class (is_char "-") in
  let hex n := times n (Class is_hex) in
  Cat (hex 8%nat) (Cat dash (Cat (hex 4%nat) (Cat dash (Cat (hex 4%nat)
    (Cat dash (Cat (hex 4%nat) (Cat dash (hex 12%nat)))))))).

End Patterns.

(** The object handed to [Schema.decodeUnknown].  A key that the object
    literal does not have is [None]; [salary] and [ssn] may be present and
    [null]. *)
Record Raw : Type := {
  raw_id : string;
  raw_email : string;
  raw_name : string;
  raw_role : string;
  raw_isActive : bool;
  raw_createdAt : Date;
  raw_updatedAt : Date;
  raw_salary : option (option Js.Number);
  raw_ssn : option (option string);
  raw_password : option string
}.

Record BaseUser : Type := {
  id : string;
  email : string;
  name : string;
  role : RoleName;
  isActive : bool;
  createdAt : Date;
  updatedAt : Date
}.

(** [FullUser = BaseUser.extend(SensitiveUserData.fields)] *)
Record FullUser : Type := {
  base : BaseUser;
  salary : option Js.Number;
  ssn : option string
}.

(** [UserWithPassword = FullUser.extend({ password })] *)
Record UserWithPassword : Type := {
  full : FullUser;
  password : string
}.

(** [UserByRole<R>], the conditional type, as a tagged union. *)
Inductive UserView : Type :=
| Base (u : BaseUser)
| Full (u : FullUser).

Record AuthContext : Type := {
  userId : string;
  ctx_role : RoleName
}.

(** [UpdateUserProfile]: both fields are [Schema.optional(Schema.String)]. *)
Record UpdateUserProfile : Type := {
  patch_name : option string;
  patch_email : option string
}.

(** [UpdateSensitiveData]: both fields are optional and nullable. *)
Record UpdateSensitiveData : Type := {
  patch_salary : option (option Js.Number);
  patch_ssn : option (option string)
}.

Module Schema.

(** The field rules. *)
Definition valid_id (s : string) : bool := Js.matches Patterns.uuid s.
Definition valid_email (s : string) : bool := Js.matches Patterns.email s.
Definition valid_name (s : string) : bool :=
  (1 <=? String.length s)%nat && (String.length s <=? 255)%nat.
Definition valid_salary (x : option Js.Number) : bool :=
  match x with
  | None => true
  | Some n => Js.ge_zero n
  end.
Definition valid_ssn (x : option string) : bool :=
  match x with
  | None => true
  | Some s => Js.matches Patterns.ssn s
  end.
Definition valid_password (s : string) : bool := (8 <=? String.length s)%nat.

(** The property names of each class, in declaration order. *)
Definition BaseUser_fields : list string :=
  ["id"; "email"; "name"; "role"; "isActive"; "createdAt"; "updatedAt"].
Definition SensitiveUserData_fields : list string := ["salary"; "ssn"].
Definition FullUser_fields : list string :=
  BaseUser_fields ++ SensitiveUserData_fields.

(** The own property names of a decoded view. *)
Definition keys (v : UserView) : list string :=
  match v with
  | Base _ => BaseUser_fields
  | Full _ => FullUser_fields
  end.

(** [Schema.decodeUnknown(BaseUser)]: keys outside the schema are dropped. *)
Definition decodeBaseUser (o : Raw) : option BaseUser :=
  match RoleName_decode (raw_role o) with
  | Some r =>
      if valid_id (raw_id o) && valid_email (raw_email o) && valid_name (raw_name o)
      then Some {| id := raw_id o; email := raw_email o; name := raw_name o;
                   role := r; isActive := raw_isActive o;
                   createdAt := raw_createdAt o; updatedAt := raw_updatedAt o |}
      else None
  | None => None
  end.

(** [Schema.decodeUnknown(FullUser)]: the fields of [BaseUser], then
    [salary] and [ssn], which must be present. *)
Definition decodeFullUser (o : Raw) : option FullUser :=
  match decodeBaseUser o, raw_salary o, raw_ssn o with
  | Some b, Some sal, Some s =>
      if valid_salary sal && valid_ssn s
      then Some {| base := b; salary := sal; ssn := s |}
      else None
  | _, _, _ => None
  end.

(** [Schema.decodeUnknown(UserWithPassword)] *)
Definition decodeUserWithPassword (o : Raw) : option UserWithPassword :=
  match decodeFullUser o, raw_password o with
  | Some f, Some p =>
      if valid_password p then Some {| full := f; password := p |} else None
  | _, _ => None
  end.

(** [Schema.decodeUnknown(AuthContext)] on [{ userId, role }]. *)
Definition decodeAuthContext (rawUserId rawRole : string) : option AuthContext :=
  match RoleName_decode rawRole with
  | Some r =>
      if valid_id rawUserId then Some {| userId := rawUserId; ctx_role := r |}
      else None
  | None => None
  end.

End Schema.

(* ------------------------------------------------------------------ *)
(** ** The users table and [UserMapper] *)
(* ------------------------------------------------------------------ *)

(** [UserRow = typeof usersTable.$inferSelect]: [numeric] comes back as a
    string, nullable columns as [null]. *)
Record UserRow : Type := {
  row_id : string;
  row_name : string;
  row_email : string;
  row_role : string;
  row_isActive : bool;
  row_password : string;
  row_salary : option string;
  row_ssn : option string;
  row_createdAt : Date;
  row_updatedAt : Date
}.

(** The test of the [where] clause [eq(usersTable.id, userId)]: the row's
    id and the given text are the same uuid. *)
Definition hasId (userId : string) (row : UserRow) : bool :=
  Uuid.same (row_id row) userId.

Module UserMapper.

(** The seven keys every mapper copies from the row. *)
Definition common (row : UserRow)
  (sal : option (option Js.Number)) (s : option (option string))
  (p : option string) : Raw :=
  {| raw_id := row_id row; raw_email := row_email row; raw_name := row_name row;
     raw_role := row_role row; raw_isActive := row_isActive row;
     raw_createdAt := row_createdAt row; raw_updatedAt := row_updatedAt row;
     raw_salary := sal; raw_ssn := s; raw_password := p |}.

(** [row.salary ? parseFloat(row.salary) : null] *)
Definition salaryOf (row : UserRow) : option Js.Number :=
  match row_salary row with
  | Some s => if Js.truthy s then Some (Js.parseFloat s) else None
  | None => None
  end.

Definition toBaseUser (row : UserRow) : Exit BaseUser :=
  ExitM.mapError
    (fun _ => DatabaseError "Failed to map database row to BaseUser domain model")
    (ExitM.decodeUnknown (Schema.decodeBaseUser (common row None None None))).

Definition toFullUser (row : UserRow) : Exit FullUser :=
  ExitM.mapError
    (fun _ => DatabaseError "Failed to map database row to FullUser domain model")
    (ExitM.decodeUnknown (Schema.decodeFullUser
       (common row (Some (salaryOf row)) (Some (row_ssn row)) None))).

Definition toUserWithPassword (row : UserRow) : Exit UserWithPassword :=
  ExitM.mapError
    (fun _ => DatabaseError "Failed to map database row to UserWithPassword domain model")
    (ExitM.decodeUnknown (Schema.decodeUserWithPassword
       (common row (Some (salaryOf row)) (Some (row_ssn row))
          (Some (row_password row))))).

Definition toUserByRole (row : UserRow) (requestingRole : RoleName) : Exit UserView :=
  match requestingRole with
  | admin => ExitM.bind (toFullUser row) (fun u => Success (Full u))
  | user => ExitM.bind (toBaseUser row) (fun u => Success (Base u))
  end.

Definition toUsersByRole (rows : list UserRow) (requestingRole : RoleName)
  : Exit (list UserView) :=
  ExitM.bind
    (ExitM.all (map (fun row => toUserByRole row requestingRole) rows))
    (fun users => Success users).

End UserMapper.

(* ------------------------------------------------------------------ *)
(** ** The outside world and effects *)
(* ------------------------------------------------------------------ *)

(** [Partial<typeof usersTable.$inferInsert>] as far as the repository fills
    it: a key that was not assigned is [None]. *)
Record RowUpdates : Type := {
  set_name : option string;
  set_email : option string;
  set_salary : option (option string);
  set_ssn : option (option string);
  set_updatedAt : option Date
}.

(** The statements the repository sends to the storage engine. *)
Inductive Statement : Type :=
| SelectById (userId : string)
| SelectActive
| SelectByEmail (email : string)
| UpdateById (userId : string) (updates : RowUpdates).

(** The environment variables read through [Config]. *)
Record Env : Type := {
  JWT_SECRET : option string;
  JWT_EXPIRES_IN : option string
}.

(** [engine_ok = false] is a storage engine whose promise rejects.
    [statements] records every statement sent, latest first. *)
Record World : Type := {
  table : list UserRow;
  engine_ok : bool;
  clock : Date;
  env : Env;
  statements : list Statement
}.

Record JWTPayload : Type := {
  claim_userId : string;
  claim_email : string;
  claim_role : string
}.

(** The libraries behind the sources, at their interface:
    - [jwt.verify(token, secret)], at a given time, returns the payload or
      throws;
    - [jwt.sign(payload, secret, { expiresIn })] returns the token or throws;
    - [bcrypt.compare(plain, hash)];
    - [Number.prototype.toString];
    - the array the driver resolves an [UPDATE] without a [RETURNING] clause
      to, given the rows the statement matched. *)
Class Collaborators : Type := {
  jwt_verify : string -> string -> Date -> option JWTPayload;
  jwt_sign : JWTPayload -> string -> string -> Date -> option string;
  bcrypt_compare : string -> string -> bool;
  number_toString : Js.Number -> string;
  update_result : list UserRow -> list UserRow
}.

Module Effect.

Definition t (A : Type) : Type := World -> Exit A * World.

Definition succeed {A : Type} (a : A) : t A := fun w => (Success a, w).

Definition fail {A : Type} (e : AppError) : t A := fun w => (Failure e, w).

Definition flatMap {A B : Type} (m : t A) (k : A -> t B) : t B :=
  fun w =>
    match m w with
    | (Success a, w') => k a w'
    | (Failure e, w') => (Failure e, w')
    | (Die, w') => (Die, w')
    end.

(** An effect that needs nothing from the world. *)
Definition done {A : Type} (x : Exit A) : t A := fun w => (x, w).

Definition orDie {A : Type} (m : t A) : t A :=
  fun w =>
    match m w with
    | (Failure _, w') => (Die, w')
    | other => other
    end.

(** [Config.string(name).pipe(Config.withDefault(d)).pipe(Effect.orDie)] *)
Definition configWithDefault (read : Env -> option string) (d : string) : t string :=
  fun w =>
    match read (env w) with
    | Some v => (Success v, w)
    | None => (Success d, w)
    end.

(** [new Date()] *)
Definition now : t Date := fun w => (Success (clock w), w).

End Effect.

Declare Scope effect_scope.
Delimit Scope effect_scope with effect.
Notation "x <- m ;; k" := (Effect.flatMap m (fun x => k))
  (at level 100, m at next level, right associativity) : effect_scope.
Local Open Scope effect_scope.

(* ------------------------------------------------------------------ *)
(** ** [UserRepositoryLive] *)
(* ------------------------------------------------------------------ *)

Module UserRepository.

Definition record (s : Statement) (w : World) : World :=
  {| table := table w; engine_ok := engine_ok w; clock := clock w;
     env := env w; statements := s :: statements w |}.

(** [Effect.tryPromise] around [db.select().from(usersTable).where(p)] *)
Definition select (s : Statement) (p : UserRow -> bool) (message : string)
  : Effect.t (list UserRow) :=
  fun w =>
    if engine_ok w
    then (Success (filter p (table w)), record s w)
    else (Failure (DatabaseError message), record s w).

Definition applyUpdates (u : RowUpdates) (row : UserRow) : UserRow :=
  {| row_id := row_id row;
     row_name := match set_name u with Some v => v | None => row_name row end;
     row_email := match set_email u with Some v => v | None => row_email row end;
     row_role := row_role row;
     row_isActive := row_isActive row;
     row_password := row_password row;
     row_salary := match set_salary u with Some v => v | None => row_salary row end;
     row_ssn := match set_ssn u with Some v => v | None => row_ssn row end;
     row_createdAt := row_createdAt row;
     row_updatedAt :=
       match set_updatedAt u with Some v => v | None => row_updatedAt row end |}.

Definition noUpdates : RowUpdates :=
  {| set_name := None; set_email := None; set_salary := None; set_ssn := None;
     set_updatedAt := None |}.

(** [Object.keys(updates).length === 0] *)
Definition hasNoKeys (u : RowUpdates) : bool :=
  match set_name u, set_email u, set_salary u, set_ssn u, set_updatedAt u with
  | None, None, None, None, None => true
  | _, _, _, _, _ => false
  end.

Definition withUpdatedAt (d : Date) (u : RowUpdates) : RowUpdates :=
  {| set_name := set_name u; set_email := set_email u; set_salary := set_salary u;
     set_ssn := set_ssn u; set_updatedAt := Some d |}.

Section Live.
Context {C : Collaborators}.

(** [Effect.tryPromise] around
    [db.update(usersTable).set(updates).where(eq(usersTable.id, userId))].
    The rows the statement changes are those whose id is the given uuid,
    whatever its spelling.  The list [table] stands for the content of the
    table, and a row keeps its place in the list under an update.  The engine
    promises no order for the rows of a select without [order by]; the place
    of a row in the list is the model's own, and is no statement about where
    the engine lists the row after an update. *)
Definition execute (userId : string) (updates : RowUpdates) (message : string)
  : Effect.t (list UserRow) :=
  fun w =>
    let hit := hasId userId in
    if engine_ok w
    then (Success (update_result (filter hit (table w))),
          {| table := map (fun row => if hit row then applyUpdates updates row else row)
                          (table w);
             engine_ok := engine_ok w; clock := clock w; env := env w;
             statements := UpdateById userId updates :: statements w |})
    else (Failure (DatabaseError message), record (UpdateById userId updates) w).

(** [rows[0]] of a non-empty array is a row, so the test [if (!row)] that
    follows [rows.length === 0] in the source never fires. *)
Definition findById (userId : string) (requestingRole : RoleName)
  : Effect.t (option UserView) :=
  rows <- select (SelectById userId) (hasId userId)
            "Failed to fetch user from database" ;;
  match rows with
  | [] => Effect.succeed None
  | row :: _ =>
      u <- Effect.done (UserMapper.toUserByRole row requestingRole) ;;
      Effect.succeed (Some u)
  end.

Definition findAll (requestingRole : RoleName) : Effect.t (list UserView) :=
  rows <- select SelectActive (fun row => Bool.eqb (row_isActive row) true)
            "Failed to fetch users from database" ;;
  users <- Effect.done (UserMapper.toUsersByRole rows requestingRole) ;;
  Effect.succeed users.

Definition findByEmail (email : string) : Effect.t (option UserWithPassword) :=
  rows <- select (SelectByEmail email)
            (fun row => String.eqb (row_email row) email)
            "Failed to fetch user by email from database" ;;
  match rows with
  | [] => Effect.succeed None
  | row :: _ =>
      u <- Effect.done (UserMapper.toUserWithPassword row) ;;
      Effect.succeed (Some u)
  end.

(** [if (data.name) updates.name = data.name; if (data.email) ...] *)
Definition profileUpdates (data : UpdateUserProfile) : RowUpdates :=
  let keep (x : option string) : option string :=
    match x with
    | Some v => if Js.truthy v then Some v else None
    | None => None
    end in
  {| set_name := keep (patch_name data); set_email := keep (patch_email data);
     set_salary := None; set_ssn := None; set_updatedAt := None |}.

Definition update (userId : string) (data : UpdateUserProfile) : Effect.t bool :=
  let updates := profileUpdates data in
  if hasNoKeys updates then Effect.succeed false
  else
    d <- Effect.now ;;
    result <- execute userId (withUpdatedAt d updates)
                "Failed to update user in database" ;;
    Effect.succeed (0 <? List.length result)%nat.

(** [data.salary !== undefined], [data.ssn !== undefined] *)
Definition sensitiveUpdates (data : UpdateSensitiveData) : RowUpdates :=
  {| set_name := None; set_email := None;
     set_salary :=
       match patch_salary data with
       | Some (Some n) => Some (Some (number_toString n))
       | Some None => Some None
       | None => None
       end;
     set_ssn := patch_ssn data;
     set_updatedAt := None |}.

Definition updateSensitive (userId : string) (data : UpdateSensitiveData)
  : Effect.t bool :=
  let updates := sensitiveUpdates data in
  if hasNoKeys updates then Effect.succeed false
  else
    d <- Effect.now ;;
    result <- execute userId (withUpdatedAt d updates)
                "Failed to update sensitive data in database" ;;
    Effect.succeed (0 <? List.length result)%nat.

End Live.
End UserRepository.

(* ------------------------------------------------------------------ *)
(** ** [UserServiceLive] *)
(* ------------------------------------------------------------------ *)

Module UserService.
Section Live.
Context {C : Collaborators}.

Definition getUser (userId : string) (requestingRole : RoleName)
  (requestingUserId : string) : Effect.t UserView :=
  if RoleName_eqb requestingRole user && negb (String.eqb requestingUserId userId)
  then Effect.fail (ForbiddenError "Users can only view their own profile")
  else
    userOption <- UserRepository.findById userId requestingRole ;;
    match userOption with
    | None => Effect.fail (NotFoundError "User" userId)
    | Some u => Effect.succeed u
    end.

Definition getAllUsers (requestingRole : RoleName) (requestingUserId : string)
  : Effect.t (list UserView) :=
  UserRepository.findAll requestingRole.

Definition updateProfile (userId : string) (data : UpdateUserProfile)
  (requestingRole : RoleName) (requestingUserId : string) : Effect.t bool :=
  if RoleName_eqb requestingRole user && negb (String.eqb requestingUserId userId)
  then Effect.fail (ForbiddenError "Cannot update other users")
  else UserRepository.update userId data.

Definition updateSensitiveData (userId : string) (data : UpdateSensitiveData)
  (requestingRole : RoleName) (requestingUserId : string) : Effect.t bool :=
  if negb (RoleName_eqb requestingRole admin)
  then Effect.fail (ForbiddenError "Admin access required")
  else UserRepository.updateSensitive userId data.

End Live.
End UserService.

(* ------------------------------------------------------------------ *)
(** ** [AuthServiceLive] *)
(* ------------------------------------------------------------------ *)

(** [Effect.try] around a library call that reads the clock. *)
Definition tryAt {A : Type} (call : Date -> option A) (onThrow : AppError)
  : Effect.t A :=
  fun w =>
    match call (clock w) with
    | Some a => (Success a, w)
    | None => (Failure onThrow, w)
    end.

Record LoginResult : Type := { token : string }.

Module AuthService.
Section Live.
Context {C : Collaborators}.

Definition generateToken (uid mail roleText : string) : Effect.t string :=
  jwtSecret <- Effect.configWithDefault JWT_SECRET "your-secret-key" ;;
  expiresIn <- Effect.configWithDefault JWT_EXPIRES_IN "24h" ;;
  signed <- tryAt
              (jwt_sign {| claim_userId := uid; claim_email := mail;
                           claim_role := roleText |} jwtSecret expiresIn)
              (AuthenticationError "Failed to generate token") ;;
  Effect.succeed signed.

Definition verifyPassword (plainPassword hashedPassword : string) : Effect.t bool :=
  Effect.succeed (bcrypt_compare plainPassword hashedPassword).

Definition login (mail pass : string) : Effect.t LoginResult :=
  userOption <- UserRepository.findByEmail mail ;;
  match userOption with
  | None => Effect.fail (AuthenticationError "Invalid email or password")
  | Some u =>
      if negb (isActive (base (full u)))
      then Effect.fail (AuthenticationError "User account is inactive")
      else
        isPasswordValid <- verifyPassword pass (password u) ;;
        if negb isPasswordValid
        then Effect.fail (AuthenticationError "Invalid email or password")
        else
          signed <- generateToken (id (base (full u))) (email (base (full u)))
                      (RoleName_encode (role (base (full u)))) ;;
          Effect.succeed {| token := signed |}
  end.

End Live.
End AuthService.

(* ------------------------------------------------------------------ *)
(** ** [AuthMiddleware.ts] *)
(* ------------------------------------------------------------------ *)

(** The request as far as the middleware reads it:
    [request.headers.authorization]. *)
Record Request : Type := { authorization : option string }.

Module AuthMiddleware.
Section Live.
Context {C : Collaborators}.

Definition verifyJwt (bearer : string) : Effect.t AuthContext :=
  if negb (Js.truthy bearer) || String.eqb bearer ""
  then Effect.fail (AuthenticationError "Missing authorization token")
  else
    jwtSecret <- Effect.configWithDefault JWT_SECRET "your-secret-key" ;;
    payload <- tryAt (jwt_verify bearer jwtSecret)
                 (AuthenticationError "Invalid or expired token") ;;
    userOption <- UserRepository.findByEmail (claim_email payload) ;;
    match userOption with
    | None => Effect.fail (AuthenticationError "User not found")
    | Some u =>
        if negb (isActive (base (full u)))
        then Effect.fail (AuthenticationError "User account is inactive")
        else
          authContext <- Effect.done
            (ExitM.mapError
               (fun _ => AuthenticationError "Invalid auth context")
               (ExitM.decodeUnknown
                  (Schema.decodeAuthContext (id (base (full u)))
                     (RoleName_encode (role (base (full u))))))) ;;
          Effect.succeed authContext
    end.

(** [authMiddleware]: the application runs with the context [verifyJwt]
    resolved. *)
Definition authMiddleware {A : Type} (app : AuthContext -> Effect.t A)
  (request : Request) : Effect.t A :=
  let authHeader :=
    match authorization request with
    | Some h => if Js.truthy h then h else ""
    | None => ""
    end in
  let bearer := Js.replace "Bearer " "" authHeader in
  authContext <- verifyJwt bearer ;;
  app authContext.

(** The token [withAuth] reads:
    [request.headers.authorization?.replace('Bearer ', '') || ''] *)
Definition bearerOf (request : Request) : string :=
  match authorization request with
  | Some h =>
      let replaced := Js.replace "Bearer " "" h in
      if Js.truthy replaced then replaced else ""
  | None => ""
  end.

(** [withAuth]: the wrapped effect runs with the context built from the two
    literals. *)
Definition withAuth {A : Type} (effect : AuthContext -> Effect.t A)
  (request : Request) : Effect.t A :=
  let bearer := bearerOf request in
  if negb (Js.truthy bearer)
  then Effect.fail (UnauthorizedObject "No token")
  else
    authContext <- Effect.orDie
      (Effect.done
         (ExitM.decodeUnknown
            (Schema.decodeAuthContext "550e8400-e29b-41d4-a716-446655440000"
               "admin"))) ;;
    effect authContext.

End Live.
End AuthMiddleware.

(* ------------------------------------------------------------------ *)
(** ** [UserHandlersLive] *)
(* ------------------------------------------------------------------ *)

(** Each handler receives the path and payload already decoded by the API
    definition ([path.id], [payload]) and wraps its use case in [withAuth]. *)
Module UserHandlers.
Section Live.
Context {C : Collaborators}.

Definition getCurrentUser : Request -> Effect.t UserView :=
  AuthMiddleware.withAuth (fun authContext =>
    UserService.getUser (userId authContext) (ctx_role authContext)
      (userId authContext)).

Definition getAllUsers : Request -> Effect.t (list UserView) :=
  AuthMiddleware.withAuth (fun authContext =>
    UserService.getAllUsers (ctx_role authContext) (userId authContext)).

Definition getUser (pathId : string) : Request -> Effect.t UserView :=
  AuthMiddleware.withAuth (fun authContext =>
    UserService.getUser pathId (ctx_role authContext) (userId authContext)).

Definition updateUser (pathId : string) (payload : UpdateUserProfile)
  : Request -> Effect.t bool :=
  AuthMiddleware.withAuth (fun authContext =>
    UserService.updateProfile pathId payload (ctx_role authContext)
      (userId authContext)).

Definition updateSensitiveData (pathId : string) (payload : UpdateSensitiveData)
  : Request -> Effect.t bool :=
  AuthMiddleware.withAuth (fun authContext =>
    UserService.updateSensitiveData pathId payload (ctx_role authContext)
      (userId authContext)).

End Live.
End UserHandlers.

(* ------------------------------------------------------------------ *)
(** ** Sample data

    Rows, a world and stand-ins for the libraries, on which the statements
    below are run. *)
(* ------------------------------------------------------------------ *)

Module Sample.

Definition annId : string := "550e8400-e29b-41d4-a716-446655440000".
Definition bobId : string := "7c9e6679-7425-40de-944b-e07fc1f90ae7".
Definition calId : string := "16fd2706-8baf-433b-82eb-8c7fada847da".

Definition ann : UserRow :=
  {| row_id := annId; row_name := "Ann"; row_email := "a@b.com";
     row_role := "admin"; row_isActive := true;
     row_password := "hashed:ann-secret";
     row_salary := Some "50000.00"; row_ssn := Some "123-45-6789";
     row_createdAt := 1000; row_updatedAt := 1000 |}.

Definition bob : UserRow :=
  {| row_id := bobId; row_name := "Bob"; row_email := "bob@b.com";
     row_role := "user"; row_isActive := true;
     row_password := "hashed:bob-secret";
     row_salary := None; row_ssn := None;
     row_createdAt := 2000; row_updatedAt := 2000 |}.

Definition cal : UserRow :=
  {| row_id := calId; row_name := "Cal"; row_email := "cal@b.com";
     row_role := "user"; row_isActive := false;
     row_password := "hashed:cal-secret";
     row_salary := Some "1200.50"; row_ssn := None;
     row_createdAt := 3000; row_updatedAt := 3000 |}.

Definition withSalary (s : option string) (row : UserRow) : UserRow :=
  {| row_id := row_id row; row_name := row_name row; row_email := row_email row;
     row_role := row_role row; row_isActive := row_isActive row;
     row_password := row_password row; row_salary := s; row_ssn := row_ssn row;
     row_createdAt := row_createdAt row; row_updatedAt := row_updatedAt row |}.

Definition withRole (r : string) (row : UserRow) : UserRow :=
  {| row_id := row_id row; row_name := row_name row; row_email := row_email row;
     row_role := r; row_isActive := row_isActive row;
     row_password := row_password row; row_salary := row_salary row;
     row_ssn := row_ssn row;
     row_createdAt := row_createdAt row; row_updatedAt := row_updatedAt row |}.

Definition world (rows : list UserRow) : World :=
  {| table := rows; engine_ok := true; clock := 5000;
     env := {| JWT_SECRET := Some "s3cret"; JWT_EXPIRES_IN := None |};
     statements := [] |}.

Definition office : World := world [ann; bob; cal].

(** A token of the stand-in signer is [secret ++ "." ++ role ++ "." ++ email];
    it never expires.  A stand-in hash is ["hashed:" ++ plain]. *)
Definition sign (payload : JWTPayload) (secret expiresIn : string) (at_ : Date)
  : option string :=
  Some (secret ++ "." ++ claim_role payload ++ "." ++ claim_email payload).

Definition verify (bearer secret : string) (at_ : Date) : option JWTPayload :=
  match Js.strip_prefix (secret ++ ".user.") bearer with
  | Some mail =>
      Some {| claim_userId := ""; claim_email := mail; claim_role := "user" |}
  | None =>
      match Js.strip_prefix (secret ++ ".admin.") bearer with
      | Some mail =>
          Some {| claim_userId := ""; claim_email := mail; claim_role := "admin" |}
      | None => None
      end
  end.

Definition compare (plain hash : string) : bool := String.eqb ("hashed:" ++ plain) hash.

Definition showNumber (n : Js.Number) : string :=
  match n with
  | Js.NaN => "NaN"
  | Js.Infinity false => "Infinity"
  | Js.Infinity true => "-Infinity"
  | Js.Finite _ _ _ => "0"
  end.

#[local] Instance libraries : Collaborators :=
  {| jwt_verify := verify; jwt_sign := sign; bcrypt_compare := compare;
     number_toString := showNumber; update_result := fun _ => [] |}.

End Sample.

(* ------------------------------------------------------------------ *)
(** ** Properties of the mapper *)
(* ------------------------------------------------------------------ *)

Definition isFull (v : UserView) : bool :=
  match v with
  | Full _ => true
  | Base _ => false
  end.

(** The secret both [verifyJwt] and [generateToken] read from the
    configuration, and the expiry [generateToken] reads. *)
Definition secretOf (w : World) : string :=
  match JWT_SECRET (env w) with
  | Some v => v
  | None => "your-secret-key"
  end.

Definition expiryOf (w : World) : string :=
  match JWT_EXPIRES_IN (env w) with
  | Some v => v
  | None => "24h"
  end.

(** The context [withAuth] builds from its two literals. *)
Definition literalContext : AuthContext :=
  {| userId := "550e8400-e29b-41d4-a716-446655440000"; ctx_role := admin |}.

(* ------------------------------------------------------------------ *)
(** ** [requireRole] *)
(* ------------------------------------------------------------------ *)

(** [SessionContext] of [connection.ts]; [requireRole] reads it through
    [SessionContextTag]. *)
Record SessionContext : Type := {
  session_userId : option string;
  session_role : RoleName
}.

(** [requireRole(...roles)]: [roles.includes(session.role)] decides; the
    [DatabaseConnection] the effect asks for is not used. *)
Definition requireRole (roles : list RoleName) (session : SessionContext)
  : Effect.t unit :=
  if negb (existsb (fun allowed => RoleName_eqb allowed (session_role session)) roles)
  then Effect.fail (DatabaseError "Forbidden: insufficient role")
  else Effect.succeed tt.

(* ------------------------------------------------------------------ *)
(** ** What the statements below are phrased with *)
(* ------------------------------------------------------------------ *)

(** The strings of a regular expression. *)
Inductive lang : Js.Regex -> string -> Prop :=
| lang_eps : lang Js.Eps ""
| lang_class (p : ascii -> bool) (c : ascii) :
    p c = true -> lang (Js.Class p) (String c "")
| lang_cat (r1 r2 : Js.Regex) (s1 s2 : string) :
    lang r1 s1 -> lang r2 s2 -> lang (Js.Cat r1 r2) (s1 ++ s2)
| lang_alt_left (r1 r2 : Js.Regex) (s : string) :
    lang r1 s -> lang (Js.Alt r1 r2) s
| lang_alt_right (r1 r2 : Js.Regex) (s : string) :
    lang r2 s -> lang (Js.Alt r1 r2) s
| lang_star_empty (r : Js.Regex) : lang (Js.Star r) ""
| lang_star_more (r : Js.Regex) (s1 s2 : string) :
    lang r s1 -> lang (Js.Star r) s2 -> lang (Js.Star r) (s1 ++ s2).

(** Every code unit of the string is in the class. *)
Fixpoint allChars (p : ascii -> bool) (s : string) : bool :=
  match s with
  | EmptyString => true
  | String c s' => p c && allChars p s'
  end.

(** The [BaseUser] part of a view. *)
Definition viewBase (v : UserView) : BaseUser :=
  match v with
  | Base b => b
  | Full f => base f
  end.

(** A [BaseUser] with another name, email and modification date. *)
Definition renamed (n mail : string) (d : Date) (b : BaseUser) : BaseUser :=
  {| id := id b; email := mail; name := n; role := role b;
     isActive := isActive b; createdAt := createdAt b; updatedAt := d |}.

(** The columns no statement of the repository assigns. *)
Definition fixedColumns (row : UserRow) : string * string * bool * string * Date :=
  (row_id row, row_role row, row_isActive row, row_password row, row_createdAt row).

(** The world after the storage engine carried out
    [update ... set updates where id = userId]. *)
Definition written (userId : string) (updates : RowUpdates) (w : World) : World :=
  {| table := map (fun row => if hasId userId row
                              then UserRepository.applyUpdates updates row
                              else row) (table w);
     engine_ok := engine_ok w; clock := clock w; env := env w;
     statements := UpdateById userId updates :: statements w |}.

(** An effect that went from [w] to [w'] at most sent one statement and
    changed nothing else. *)
Definition readOnly (w w' : World) : Prop :=
  table w' = table w /\ engine_ok w' = engine_ok w /\ clock w' = clock w
  /\ env w' = env w
  /\ (statements w' = statements w \/ exists s, statements w' = s :: statements w).

(** The kind of view [toUserByRole] yields is fixed by the requested role. *)
Lemma toUserByRole_kind (row : UserRow) (r : RoleName) (v : UserView) :
  UserMapper.toUserByRole row r = Success v -> isFull v = RoleName_eqb r admin.
Proof.
  destruct r; simpl.
  - destruct (UserMapper.toFullUser row); simpl; intros H; inversion H; reflexivity.
  - destruct (UserMapper.toBaseUser row); simpl; intros H; inversion H; reflexivity.
Qed.

(** A mapper never ends with a defect, and its only failure is a
    [DatabaseError]. *)
Lemma toUserByRole_failure (row : UserRow) (r : RoleName) :
  match UserMapper.toUserByRole row r with
  | Success _ => True
  | Failure e => exists m, e = DatabaseError m
  | Die => False
  end.
Proof.
  destruct r; simpl.
  - unfold UserMapper.toFullUser.
    destruct (Schema.decodeFullUser _); simpl; eauto.
  - unfold UserMapper.toBaseUser.
    destruct (Schema.decodeBaseUser _); simpl; eauto.
Qed.

Lemma all_success_pointwise {A : Type} (xs : list (Exit A)) (ys : list A) :
  ExitM.all xs = Success ys -> Forall2 (fun x y => x = Success y) xs ys.
Proof.
  revert ys; induction xs as [| x xs IH]; intros ys H; simpl in H.
  - inversion H; constructor.
  - destruct x as [a | e |]; simpl in H; try discriminate.
    destruct (ExitM.all xs) as [others | e |]; simpl in H; try discriminate.
    inversion H; subst. constructor; auto.
Qed.

Lemma all_failure_first {A : Type} (xs : list (Exit A)) (x : Exit A) (e : AppError) :
  In x xs -> x = Failure e ->
  (forall y, In y xs -> y <> Die) ->
  exists e', ExitM.all xs = Failure e' /\ In (Failure e') xs.
Proof.
  induction xs as [| y xs IH]; intros Hin Hx Hdie; [contradiction |].
  simpl. destruct y as [a | e0 |] eqn:Hy.
  - destruct Hin as [Heq | Hin]; [congruence |].
    destruct (IH Hin Hx) as [e' [Hall Hmem]].
    + intros z Hz. apply Hdie. right; exact Hz.
    + exists e'. simpl. rewrite Hall. simpl. split; [reflexivity | right; exact Hmem].
  - exists e0. simpl. split; [reflexivity | left; reflexivity].
  - exfalso. apply (Hdie Die); [left; reflexivity | reflexivity].
Qed.

Lemma toUsersByRole_pointwise (rows : list UserRow) (r : RoleName)
  (views : list UserView) :
  UserMapper.toUsersByRole rows r = Success views ->
  Forall2 (fun row v => UserMapper.toUserByRole row r = Success v) rows views.
Proof.
  unfold UserMapper.toUsersByRole.
  destruct (ExitM.all _) as [vs | e |] eqn:Hall; simpl; try discriminate.
  intros H; inversion H; subst vs. apply all_success_pointwise in Hall.
  clear H. revert views Hall.
  induction rows as [| row rows IH]; intros views Hall.
  - inversion Hall; constructor.
  - simpl in Hall. inversion Hall; subst. constructor; auto.
Qed.

Lemma toUsersByRole_kind (rows : list UserRow) (r : RoleName)
  (views : list UserView) :
  UserMapper.toUsersByRole rows r = Success views ->
  Forall (fun v => isFull v = RoleName_eqb r admin) views.
Proof.
  intros H. apply toUsersByRole_pointwise in H.
  induction H as [| row v rows views Hv _ IH]; constructor; auto.
  eapply toUserByRole_kind; exact Hv.
Qed.

Lemma toUsersByRole_of_pointwise (rows : list UserRow) (r : RoleName)
  (views : list UserView) :
  Forall2 (fun row v => UserMapper.toUserByRole row r = Success v) rows views ->
  UserMapper.toUsersByRole rows r = Success views.
Proof.
  unfold UserMapper.toUsersByRole.
  induction 1 as [| row v rows views Hv _ IH]; simpl; [reflexivity |].
  rewrite Hv. simpl.
  destruct (ExitM.all _) as [vs | e |]; simpl in *; congruence.
Qed.

Lemma toUsersByRole_first_failure (before after : list UserRow) (row : UserRow)
  (r : RoleName) (e : AppError) :
  Forall (fun earlier => exists v, UserMapper.toUserByRole earlier r = Success v)
    before ->
  UserMapper.toUserByRole row r = Failure e ->
  UserMapper.toUsersByRole (before ++ row :: after)%list r = Failure e.
Proof.
  unfold UserMapper.toUsersByRole.
  intros Hbefore Hfail.
  induction Hbefore as [| earlier before [v Hv] _ IH]; simpl.
  - rewrite Hfail. reflexivity.
  - rewrite Hv. simpl.
    destruct (ExitM.all _) as [vs | e' |]; simpl in *; congruence.
Qed.

(** C8. The batch mapping keeps the order of the rows and maps every row to
    the view kind of the requested role: it succeeds with a list of views
    exactly when that list is, position by position, the mapping of the
    rows, so a batch whose rows all map does succeed, and all the views are
    of that one kind.  When a row of the batch fails to map, the batch fails
    with a [DatabaseError], so no list of the rows that did map is returned;
    the failure is that of the first row that fails, and the batch never
    ends in a defect. *)
Theorem toUsersByRole_ordered_fail_fast (rows : list UserRow) (r : RoleName) :
  (forall views,
      UserMapper.toUsersByRole rows r = Success views
      <-> Forall2 (fun row v => UserMapper.toUserByRole row r = Success v)
            rows views)
  /\ (forall views,
         UserMapper.toUsersByRole rows r = Success views ->
         Forall (fun v => isFull v = RoleName_eqb r admin) views)
  /\ (forall row e,
         In row rows -> UserMapper.toUserByRole row r = Failure e ->
         exists m, UserMapper.toUsersByRole rows r = Failure (DatabaseError m))
  /\ (forall before row after e,
         rows = (before ++ row :: after)%list ->
         Forall (fun earlier =>
                   exists v, UserMapper.toUserByRole earlier r = Success v) before ->
         UserMapper.toUserByRole row r = Failure e ->
         UserMapper.toUsersByRole rows r = Failure e)
  /\ UserMapper.toUsersByRole rows r <> Die.
Proof.
  split; [| split; [| split; [| split]]].
  - intros views. split.
    + apply toUsersByRole_pointwise.
    + apply toUsersByRole_of_pointwise.
  - intros views H. eapply toUsersByRole_kind; exact H.
  - intros row e Hin Hfail. unfold UserMapper.toUsersByRole.
    destruct (all_failure_first
                (map (fun row0 => UserMapper.toUserByRole row0 r) rows)
                (UserMapper.toUserByRole row r) e) as [e' [Hall Hmem]].
    + apply in_map_iff. exists row; auto.
    + exact Hfail.
    + intros y Hy Hdie. apply in_map_iff in Hy. destruct Hy as [row0 [Hrow0 _]].
      pose proof (toUserByRole_failure row0 r) as Hshape.
      rewrite Hrow0, Hdie in Hshape. exact Hshape.
    + apply in_map_iff in Hmem. destruct Hmem as [row0 [Hrow0 _]].
      pose proof (toUserByRole_failure row0 r) as Hshape.
      rewrite Hrow0 in Hshape. destruct Hshape as [m Hm]. subst e'.
      exists m. rewrite Hall. reflexivity.
  - intros before row after e Hrows Hbefore Hfail. subst rows.
    apply toUsersByRole_first_failure; assumption.
  - unfold UserMapper.toUsersByRole.
    induction rows as [| row rows IH]; simpl; [discriminate |].
    pose proof (toUserByRole_failure row r) as Hshape.
    destruct (UserMapper.toUserByRole row r) as [v | e |]; simpl;
      [| discriminate | contradiction].
    destruct (ExitM.all _) as [vs | e |]; simpl in *;
      [discriminate | discriminate | contradiction IH; reflexivity].
Qed.

Lemma toUsersByRole_ordered_fail_fast_witness :
  UserMapper.toUsersByRole [Sample.ann; Sample.bob] user
  = Success [Base {| id := Sample.annId; email := "a@b.com"; name := "Ann";
                     role := admin; isActive := true;
                     createdAt := 1000; updatedAt := 1000 |};
             Base {| id := Sample.bobId; email := "bob@b.com"; name := "Bob";
                     role := user; isActive := true;
                     createdAt := 2000; updatedAt := 2000 |}]
  /\ (exists m,
         UserMapper.toUsersByRole
           [Sample.ann; Sample.withRole "owner" Sample.bob; Sample.cal] admin
         = Failure (DatabaseError m))
  /\ UserMapper.toUsersByRole
       [Sample.ann; Sample.withRole "owner" Sample.bob; Sample.cal] admin
     = Failure (DatabaseError "Failed to map database row to FullUser domain model").
Proof.
  split; [| split].
  - apply (proj2 (proj1 (toUsersByRole_ordered_fail_fast
                           [Sample.ann; Sample.bob] user) _)).
    repeat constructor.
  - apply (proj1 (proj2 (proj2 (toUsersByRole_ordered_fail_fast
                    [Sample.ann; Sample.withRole "owner" Sample.bob; Sample.cal]
                    admin)))
             (Sample.withRole "owner" Sample.bob)
             (DatabaseError "Failed to map database row to FullUser domain model")).
    + simpl. right; left; reflexivity.
    + vm_compute. reflexivity.
  - apply (proj1 (proj2 (proj2 (proj2 (toUsersByRole_ordered_fail_fast
                    [Sample.ann; Sample.withRole "owner" Sample.bob; Sample.cal]
                    admin))))
             [Sample.ann] (Sample.withRole "owner" Sample.bob) [Sample.cal]).
    + reflexivity.
    + repeat constructor. eexists. vm_compute. reflexivity.
    + vm_compute. reflexivity.
Defined.

(** The base decoder reads the seven common keys only. *)
Lemma decodeBaseUser_common (row : UserRow)
  (sal : option (option Js.Number)) (s : option (option string)) (p : option string) :
  Schema.decodeBaseUser (UserMapper.common row sal s p)
  = Schema.decodeBaseUser (UserMapper.common row None None None).
Proof. reflexivity. Qed.

Lemma toFullUser_success (row : UserRow) (f : FullUser) :
  UserMapper.toFullUser row = Success f ->
  Schema.decodeBaseUser (UserMapper.common row None None None) = Some (base f)
  /\ salary f = UserMapper.salaryOf row
  /\ ssn f = row_ssn row
  /\ Schema.valid_salary (UserMapper.salaryOf row) = true
  /\ Schema.valid_ssn (row_ssn row) = true.
Proof.
  unfold UserMapper.toFullUser, Schema.decodeFullUser.
  rewrite decodeBaseUser_common.
  destruct (Schema.decodeBaseUser _) as [b |]; simpl; [| discriminate].
  destruct (Schema.valid_salary _) eqn:Hsal; simpl; [| discriminate].
  destruct (Schema.valid_ssn _) eqn:Hssn; simpl; [| discriminate].
  intros H; inversion H; subst; simpl. repeat split; reflexivity.
Qed.

(** C10. When a row maps to a FullView under role admin, the same row maps
    under role user to the BaseView made of the FullView's base fields (id,
    email, name, role, isActive, createdAt, updatedAt).  The keys of the
    BaseView are among the keys of the FullView, and [salary] and [ssn] are
    keys of the FullView only. *)
Theorem base_view_is_projection_of_full_view (row : UserRow) (f : FullUser) :
  UserMapper.toUserByRole row admin = Success (Full f) ->
  UserMapper.toUserByRole row user = Success (Base (base f))
  /\ incl (Schema.keys (Base (base f))) (Schema.keys (Full f))
  /\ ~ In "salary" (Schema.keys (Base (base f)))
  /\ ~ In "ssn" (Schema.keys (Base (base f)))
  /\ In "salary" (Schema.keys (Full f))
  /\ In "ssn" (Schema.keys (Full f)).
Proof.
  intros H. simpl in H.
  destruct (UserMapper.toFullUser row) as [f' | e |] eqn:Hfull; simpl in H;
    try discriminate.
  inversion H; subst f'. apply toFullUser_success in Hfull.
  destruct Hfull as [Hbase _].
  split.
  - simpl. unfold UserMapper.toBaseUser. rewrite Hbase. reflexivity.
  - unfold Schema.keys, Schema.FullUser_fields. repeat split.
    + apply incl_appl, incl_refl.
    + unfold Schema.BaseUser_fields; simpl; intuition discriminate.
    + unfold Schema.BaseUser_fields; simpl; intuition discriminate.
    + apply in_or_app; right; simpl; auto.
    + apply in_or_app; right; simpl; auto.
Qed.

Lemma base_view_is_projection_of_full_view_witness :
  UserMapper.toUserByRole Sample.ann user
  = Success (Base {| id := Sample.annId; email := "a@b.com"; name := "Ann";
                     role := admin; isActive := true;
                     createdAt := 1000; updatedAt := 1000 |}).
Proof.
  apply (base_view_is_projection_of_full_view Sample.ann
           {| base := {| id := Sample.annId; email := "a@b.com"; name := "Ann";
                         role := admin; isActive := true;
                         createdAt := 1000; updatedAt := 1000 |};
              salary := Some (Js.Decimal false 5000000 (-2));
              ssn := Some "123-45-6789" |}).
  vm_compute. reflexivity.
Defined.




(* ------------------------------------------------------------------ *)
(** ** Properties of the repository and of the user service *)
(* ------------------------------------------------------------------ *)

Ltac run :=
  unfold Effect.flatMap, Effect.succeed, Effect.fail, Effect.done, Effect.now,
    Effect.configWithDefault, Effect.orDie, tryAt, UserRepository.select in *.

Section ServiceFacts.
Context {C : Collaborators}.

(** What [findById] comes to: one statement, then the mapping of the first
    row the statement returned. *)
Lemma findById_run (targetId : string) (r : RoleName) (w : World) :
  UserRepository.findById targetId r w
  = let w' := UserRepository.record (SelectById targetId) w in
    if engine_ok w then
      match filter (hasId targetId) (table w) with
      | [] => (Success None, w')
      | row :: _ =>
          match UserMapper.toUserByRole row r with
          | Success v => (Success (Some v), w')
          | Failure e => (Failure e, w')
          | Die => (Die, w')
          end
      end
    else (Failure (DatabaseError "Failed to fetch user from database"), w').
Proof.
  unfold UserRepository.findById. run.
  destruct (engine_ok w); [| reflexivity].
  destruct (filter _ (table w)) as [| row rest]; [reflexivity |].
  destruct (UserMapper.toUserByRole row r); reflexivity.
Qed.

Lemma findAll_run (r : RoleName) (w : World) :
  UserRepository.findAll r w
  = let w' := UserRepository.record SelectActive w in
    if engine_ok w then
      match UserMapper.toUsersByRole
              (filter (fun row => Bool.eqb (row_isActive row) true) (table w)) r with
      | Success vs => (Success vs, w')
      | Failure e => (Failure e, w')
      | Die => (Die, w')
      end
    else (Failure (DatabaseError "Failed to fetch users from database"), w').
Proof.
  unfold UserRepository.findAll. run.
  destruct (engine_ok w); [| reflexivity].
  destruct (UserMapper.toUsersByRole _ r); reflexivity.
Qed.

Lemma findByEmail_run (mail : string) (w : World) :
  UserRepository.findByEmail mail w
  = let w' := UserRepository.record (SelectByEmail mail) w in
    if engine_ok w then
      match filter (fun row => String.eqb (row_email row) mail) (table w) with
      | [] => (Success None, w')
      | row :: _ =>
          match UserMapper.toUserWithPassword row with
          | Success u => (Success (Some u), w')
          | Failure e => (Failure e, w')
          | Die => (Die, w')
          end
      end
    else (Failure (DatabaseError "Failed to fetch user by email from database"), w').
Proof.
  unfold UserRepository.findByEmail. run.
  destruct (engine_ok w); [| reflexivity].
  destruct (filter _ (table w)) as [| row rest]; [reflexivity |].
  destruct (UserMapper.toUserWithPassword row); reflexivity.
Qed.

Lemma RoleName_eqb_eq (a b : RoleName) : RoleName_eqb a b = true <-> a = b.
Proof. destruct a, b; simpl; split; congruence. Qed.

Lemma getUser_success (targetId : string) (r : RoleName) (uid : string)
  (w w' : World) (v : UserView) :
  UserService.getUser targetId r uid w = (Success v, w') ->
  (r = admin \/ uid = targetId)
  /\ exists row rest,
       filter (hasId targetId) (table w) = row :: rest
       /\ UserMapper.toUserByRole row r = Success v.
Proof.
  unfold UserService.getUser.
  destruct (RoleName_eqb r user && negb (String.eqb uid targetId)) eqn:Hguard;
    [discriminate |].
  unfold Effect.flatMap. rewrite findById_run. simpl. intros H. split.
  - apply andb_false_iff in Hguard. destruct Hguard as [Hg | Hg].
    + left. destruct r; [reflexivity | discriminate].
    + right. apply negb_false_iff in Hg. apply String.eqb_eq; exact Hg.
  - destruct (engine_ok w); [| discriminate].
    destruct (filter _ (table w)) as [| row rest]; [discriminate |].
    exists row, rest. split; [reflexivity |].
    destruct (UserMapper.toUserByRole row r); inversion H; reflexivity.
Qed.

Lemma base_view_keys (v : UserView) :
  isFull v = false ->
  ~ In "salary" (Schema.keys v) /\ ~ In "ssn" (Schema.keys v)
  /\ ~ In "nationalId" (Schema.keys v).
Proof.
  destruct v as [b | f]; [| discriminate]. intros _.
  unfold Schema.keys, Schema.BaseUser_fields; simpl. intuition discriminate.
Qed.

(** C5. [getUser] fails with [ForbiddenError], without sending a statement,
    when the caller's role is user and the target is not the caller.
    Otherwise it fetches by id.  When the storage engine answers and has no
    row whose id is the target's uuid, it fails with [NotFoundError].  When
    the engine returns a row for the target and that row maps under the
    caller's role, it succeeds with that mapping.  Whenever it succeeds, the
    view is the mapping of the stored row under the caller's role: a FullView
    for admin and a BaseView for user, whatever role the row holds, and the
    BaseView has no [salary], [ssn] or [nationalId] key. *)
Theorem getUser_access_rule (targetId : string) (r : RoleName) (uid : string)
  (w : World) :
  (r = user -> uid <> targetId ->
   UserService.getUser targetId r uid w
   = (Failure (ForbiddenError "Users can only view their own profile"), w))
  /\ (r = admin \/ uid = targetId ->
      engine_ok w = true ->
      filter (hasId targetId) (table w) = [] ->
      UserService.getUser targetId r uid w
      = (Failure (NotFoundError "User" targetId),
         UserRepository.record (SelectById targetId) w))
  /\ (forall row rest v,
         r = admin \/ uid = targetId ->
         engine_ok w = true ->
         filter (hasId targetId) (table w) = row :: rest ->
         UserMapper.toUserByRole row r = Success v ->
         UserService.getUser targetId r uid w
         = (Success v, UserRepository.record (SelectById targetId) w))
  /\ (forall v w',
         UserService.getUser targetId r uid w = (Success v, w') ->
         (exists row rest,
             filter (hasId targetId) (table w) = row :: rest
             /\ UserMapper.toUserByRole row r = Success v)
         /\ isFull v = RoleName_eqb r admin
         /\ (r = user ->
             ~ In "salary" (Schema.keys v) /\ ~ In "ssn" (Schema.keys v)
             /\ ~ In "nationalId" (Schema.keys v))).
Proof.
  assert (Hguard : r = admin \/ uid = targetId ->
                   RoleName_eqb r user && negb (String.eqb uid targetId) = false).
  { intros [-> | ->]; [reflexivity |].
    rewrite String.eqb_refl. apply andb_false_r. }
  split; [| split; [| split]].
  - intros Hr Hne. subst r. unfold UserService.getUser. simpl.
    destruct (String.eqb_spec uid targetId); [contradiction | reflexivity].
  - intros Hallowed Hok Hnone. unfold UserService.getUser.
    rewrite (Hguard Hallowed). unfold Effect.flatMap. rewrite findById_run. simpl.
    rewrite Hok, Hnone. reflexivity.
  - intros row rest v Hallowed Hok Hrows Hmap. unfold UserService.getUser.
    rewrite (Hguard Hallowed). unfold Effect.flatMap. rewrite findById_run.
    cbv zeta. rewrite Hok, Hrows, Hmap. reflexivity.
  - intros v w' H. apply getUser_success in H.
    destruct H as [_ [row [rest [Hrows Hmap]]]].
    pose proof (toUserByRole_kind row r v Hmap) as Hkind.
    split; [exists row, rest; auto |]. split; [exact Hkind |].
    intros Hr. subst r. apply base_view_keys. exact Hkind.
Qed.

(** C6. [updateSensitiveData] fails with [ForbiddenError] "Admin access
    required" whenever the caller's role is not admin, for every target (the
    caller's own id included) and every patch, and sends no statement to the
    storage engine: the world is left as it was. *)
Theorem updateSensitiveData_requires_admin (targetId : string)
  (patch : UpdateSensitiveData) (r : RoleName) (uid : string) (w : World) :
  r <> admin ->
  UserService.updateSensitiveData targetId patch r uid w
  = (Failure (ForbiddenError "Admin access required"), w)
  /\ UserService.updateSensitiveData uid patch r uid w
     = (Failure (ForbiddenError "Admin access required"), w)
  /\ statements (snd (UserService.updateSensitiveData targetId patch r uid w))
     = statements w.
Proof.
  intros Hr. unfold UserService.updateSensitiveData.
  destruct r; [congruence |]. simpl. auto.
Qed.

(** C1. A FullView comes out of [getUser] or [getAllUsers], and
    [updateSensitiveData] succeeds, only for a caller whose context role is
    admin. *)
Theorem full_view_and_sensitive_update_only_for_admin (targetId : string)
  (patch : UpdateSensitiveData) (r : RoleName) (uid : string) (w w' : World) :
  (exists f, UserService.getUser targetId r uid w = (Success (Full f), w'))
  \/ (exists views f,
         UserService.getAllUsers r uid w = (Success views, w')
         /\ In (Full f) views)
  \/ (exists changed,
         UserService.updateSensitiveData targetId patch r uid w
         = (Success changed, w')) ->
  r = admin.
Proof.
  intros [[f H] | [[views [f [H Hin]]] | [changed H]]].
  - apply getUser_success in H. destruct H as [_ [row [rest [_ Hmap]]]].
    apply toUserByRole_kind in Hmap. simpl in Hmap.
    destruct r; [reflexivity | discriminate].
  - unfold UserService.getAllUsers in H. rewrite findAll_run in H. simpl in H.
    destruct (engine_ok w); [| discriminate].
    destruct (UserMapper.toUsersByRole _ r) as [vs | e |] eqn:Hmap;
      try discriminate.
    inversion H; subst vs. apply toUsersByRole_kind in Hmap.
    rewrite Forall_forall in Hmap. specialize (Hmap _ Hin). simpl in Hmap.
    destruct r; [reflexivity | discriminate].
  - unfold UserService.updateSensitiveData in H.
    destruct r; [reflexivity | discriminate].
Qed.

End ServiceFacts.

(* ------------------------------------------------------------------ *)
(** ** Properties of login and of the context resolvers *)
(* ------------------------------------------------------------------ *)

Section AuthFacts.
Context {C : Collaborators}.

Lemma RoleName_decode_encode (r : RoleName) :
  RoleName_decode (RoleName_encode r) = Some r.
Proof. destruct r; reflexivity. Qed.

(** A user that came out of the mapper has an id that is a UUID. *)
Lemma toUserWithPassword_valid_id (row : UserRow) (u : UserWithPassword) :
  UserMapper.toUserWithPassword row = Success u ->
  Schema.valid_id (id (base (full u))) = true.
Proof.
  unfold UserMapper.toUserWithPassword, Schema.decodeUserWithPassword,
    Schema.decodeFullUser, Schema.decodeBaseUser.
  simpl.
  destruct (RoleName_decode (row_role row)); simpl; [| discriminate].
  destruct (Schema.valid_id (row_id row)) eqn:Hid; simpl; [| discriminate].
  destruct (Schema.valid_email (row_email row) && Schema.valid_name (row_name row));
    simpl; [| discriminate].
  destruct (Schema.valid_salary _ && Schema.valid_ssn _); simpl; [| discriminate].
  destruct (Schema.valid_password _); simpl; [| discriminate].
  intros H; inversion H; subst; simpl. exact Hid.
Qed.

Lemma findByEmail_valid_id (mail : string) (w w' : World) (u : UserWithPassword) :
  UserRepository.findByEmail mail w = (Success (Some u), w') ->
  Schema.valid_id (id (base (full u))) = true.
Proof.
  rewrite findByEmail_run. simpl.
  destruct (engine_ok w); [| discriminate].
  destruct (filter _ (table w)) as [| row rest]; [discriminate |].
  destruct (UserMapper.toUserWithPassword row) as [u' | e |] eqn:Hmap;
    try discriminate.
  intros H; inversion H; subst u'. eapply toUserWithPassword_valid_id; exact Hmap.
Qed.

(** C2. [verifyJwt], step by step: an empty token fails with
    [AuthenticationError]; a token the verifier rejects under the configured
    secret fails with [AuthenticationError]; the user is looked up by the
    email of the verified payload, and an absent user fails with
    [AuthenticationError], as does a user with [isActive = false]; otherwise
    the context returned holds the id and the role of the record that was
    just loaded.  The payload's own [userId] and [role] are not read; a
    failure of the lookup itself is passed on. *)
Theorem verifyJwt_algorithm (bearer : string) (w : World) :
  AuthMiddleware.verifyJwt bearer w
  = if String.eqb bearer ""
    then (Failure (AuthenticationError "Missing authorization token"), w)
    else
      match jwt_verify bearer (secretOf w) (clock w) with
      | None => (Failure (AuthenticationError "Invalid or expired token"), w)
      | Some payload =>
          match UserRepository.findByEmail (claim_email payload) w with
          | (Success None, w') =>
              (Failure (AuthenticationError "User not found"), w')
          | (Success (Some u), w') =>
              if isActive (base (full u))
              then (Success {| userId := id (base (full u));
                               ctx_role := role (base (full u)) |}, w')
              else (Failure (AuthenticationError "User account is inactive"), w')
          | (Failure e, w') => (Failure e, w')
          | (Die, w') => (Die, w')
          end
      end.
Proof.
  unfold AuthMiddleware.verifyJwt.
  destruct bearer as [| c rest]; [reflexivity |].
  cbn [Js.truthy negb orb String.eqb].
  unfold Effect.flatMap at 1. unfold Effect.configWithDefault, secretOf.
  assert (Hsecret :
    forall k : string -> Effect.t AuthContext,
      (match
         match JWT_SECRET (env w) with
         | Some v => (Success v, w)
         | None => (Success "your-secret-key", w)
         end
       with
       | (Success a, w') => k a w'
       | (Failure e, w') => (Failure e, w')
       | (Die, w') => (Die, w')
       end)
      = k (match JWT_SECRET (env w) with
           | Some v => v
           | None => "your-secret-key"
           end) w).
  { intros k. destruct (JWT_SECRET (env w)); reflexivity. }
  rewrite Hsecret. clear Hsecret.
  unfold Effect.flatMap at 1. unfold tryAt.
  destruct (jwt_verify _ _ (clock w)) as [payload |]; [| reflexivity].
  unfold Effect.flatMap at 1.
  destruct (UserRepository.findByEmail (claim_email payload) w)
    as [[[u |] | e |] w'] eqn:Hfind; try reflexivity.
  destruct (isActive (base (full u))); simpl; [| reflexivity].
  unfold Effect.flatMap, Effect.done, Effect.succeed, Schema.decodeAuthContext.
  rewrite RoleName_decode_encode.
  rewrite (findByEmail_valid_id _ _ _ _ Hfind). reflexivity.
Qed.

(** What [login] comes to once the lookup has run. *)
Lemma login_run (mail pass : string) (w : World) :
  AuthService.login mail pass w
  = match UserRepository.findByEmail mail w with
    | (Success None, w') =>
        (Failure (AuthenticationError "Invalid email or password"), w')
    | (Success (Some u), w') =>
        if isActive (base (full u)) then
          if bcrypt_compare pass (password u) then
            match jwt_sign {| claim_userId := id (base (full u));
                              claim_email := email (base (full u));
                              claim_role := RoleName_encode (role (base (full u))) |}
                    (secretOf w') (expiryOf w') (clock w') with
            | Some signed => (Success {| token := signed |}, w')
            | None => (Failure (AuthenticationError "Failed to generate token"), w')
            end
          else (Failure (AuthenticationError "Invalid email or password"), w')
        else (Failure (AuthenticationError "User account is inactive"), w')
    | (Failure e, w') => (Failure e, w')
    | (Die, w') => (Die, w')
    end.
Proof.
  unfold AuthService.login, Effect.flatMap at 1.
  destruct (UserRepository.findByEmail mail w) as [[[u |] | e |] w0];
    try reflexivity.
  destruct (isActive (base (full u))); simpl; [| reflexivity].
  unfold AuthService.verifyPassword. run.
  destruct (bcrypt_compare pass (password u)); simpl; [| reflexivity].
  unfold AuthService.generateToken, secretOf, expiryOf. run.
  destruct (JWT_SECRET (env w0)), (JWT_EXPIRES_IN (env w0));
    destruct (jwt_sign _ _ _ (clock w0)); reflexivity.
Qed.

(** C4. [login] fails with the one message "Invalid email or password" both
    when the lookup finds no user and when the user is active but the
    password does not match the stored hash; it fails with another message,
    "User account is inactive", when the user found has [isActive = false];
    and when it returns a token, the user was found, is active, the password
    matched and the token is the signature of that user's id, email and
    role. *)
Theorem login_error_policy (mail pass : string) (w : World) :
  (forall w',
      UserRepository.findByEmail mail w = (Success None, w') ->
      AuthService.login mail pass w
      = (Failure (AuthenticationError "Invalid email or password"), w'))
  /\ (forall u w',
         UserRepository.findByEmail mail w = (Success (Some u), w') ->
         isActive (base (full u)) = true ->
         bcrypt_compare pass (password u) = false ->
         AuthService.login mail pass w
         = (Failure (AuthenticationError "Invalid email or password"), w'))
  /\ (forall u w',
         UserRepository.findByEmail mail w = (Success (Some u), w') ->
         isActive (base (full u)) = false ->
         AuthService.login mail pass w
         = (Failure (AuthenticationError "User account is inactive"), w'))
  /\ AuthenticationError "User account is inactive"
     <> AuthenticationError "Invalid email or password"
  /\ (forall result w',
         AuthService.login mail pass w = (Success result, w') ->
         exists u,
           UserRepository.findByEmail mail w = (Success (Some u), w')
           /\ isActive (base (full u)) = true
           /\ bcrypt_compare pass (password u) = true
           /\ jwt_sign {| claim_userId := id (base (full u));
                          claim_email := email (base (full u));
                          claim_role := RoleName_encode (role (base (full u))) |}
                (secretOf w') (expiryOf w') (clock w')
              = Some (token result)).
Proof.
  rewrite login_run.
  destruct (UserRepository.findByEmail mail w) as [[[u |] | e |] w0].
  - (* a user was found *)
    split; [intros; discriminate |].
    split.
    { intros u' w' H Hactive Hcmp. inversion H; subst u' w'.
      rewrite Hactive, Hcmp. reflexivity. }
    split.
    { intros u' w' H Hactive. inversion H; subst u' w'.
      rewrite Hactive. reflexivity. }
    split; [discriminate |].
    intros result w' H. exists u.
    destruct (isActive (base (full u))); [| discriminate].
    destruct (bcrypt_compare pass (password u)); [| discriminate].
    destruct (jwt_sign _ _ _ (clock w0)) as [signed |] eqn:Hsign; [| discriminate].
    inversion H; subst. simpl. auto.
  - (* no user *)
    split; [intros w' H; inversion H; reflexivity |].
    repeat split; intros; discriminate.
  - (* the lookup failed *)
    repeat split; intros; discriminate.
  - repeat split; intros; discriminate.
Qed.

(** C3. [withAuth] runs the wrapped effect with the context of its two
    literals (the fixed user id, role admin) on the world as it found it,
    for every request whose Authorization header carries a non-empty token:
    two such requests get the same context whatever their tokens are, and no
    statement is sent to the storage engine before the effect runs.  A
    request with an empty token fails with the "No token" object. *)
Theorem withAuth_ignores_token {A : Type} (effect : AuthContext -> Effect.t A)
  (request1 request2 request0 : Request) (w : World) :
  AuthMiddleware.bearerOf request1 <> "" ->
  AuthMiddleware.bearerOf request2 <> "" ->
  AuthMiddleware.bearerOf request0 = "" ->
  AuthMiddleware.withAuth effect request1 w = effect literalContext w
  /\ AuthMiddleware.withAuth effect request2 w = effect literalContext w
  /\ AuthMiddleware.withAuth effect request0 w
     = (Failure (UnauthorizedObject "No token"), w).
Proof.
  intros H1 H2 H0. unfold AuthMiddleware.withAuth. rewrite H0.
  destruct (AuthMiddleware.bearerOf request1) as [| c1 t1]; [congruence |].
  destruct (AuthMiddleware.bearerOf request2) as [| c2 t2]; [congruence |].
  repeat split.
Qed.

End AuthFacts.

(* ------------------------------------------------------------------ *)
(** ** The statements on the sample data *)
(* ------------------------------------------------------------------ *)

Lemma getUser_access_rule_witness :
  fst (UserService.getUser Sample.annId user Sample.bobId Sample.office)
  = Failure (ForbiddenError "Users can only view their own profile")
  /\ fst (UserService.getUser "00000000-0000-4000-8000-000000000000" admin
            Sample.annId Sample.office)
     = Failure (NotFoundError "User" "00000000-0000-4000-8000-000000000000")
  /\ fst (UserService.getUser "7C9E6679-7425-40DE-944B-E07FC1F90AE7" admin
            Sample.annId Sample.office)
     = Success (Full {| base := {| id := Sample.bobId; email := "bob@b.com";
                                   name := "Bob"; role := user; isActive := true;
                                   createdAt := 2000; updatedAt := 2000 |};
                        salary := None; ssn := None |})
  /\ isFull (Base {| id := Sample.annId; email := "a@b.com"; name := "Ann";
                     role := admin; isActive := true;
                     createdAt := 1000; updatedAt := 1000 |})
     = RoleName_eqb user admin.
Proof.
  split; [| split; [| split]].
  - rewrite (proj1 (getUser_access_rule Sample.annId user Sample.bobId Sample.office)
               eq_refl ltac:(discriminate)).
    reflexivity.
  - rewrite (proj1 (proj2 (getUser_access_rule
                             "00000000-0000-4000-8000-000000000000" admin
                             Sample.annId Sample.office))
               (or_introl eq_refl) eq_refl eq_refl).
    reflexivity.
  - rewrite (proj1 (proj2 (proj2 (getUser_access_rule
                                    "7C9E6679-7425-40DE-944B-E07FC1F90AE7" admin
                                    Sample.annId Sample.office)))
               Sample.bob []
               (Full {| base := {| id := Sample.bobId; email := "bob@b.com";
                                   name := "Bob"; role := user; isActive := true;
                                   createdAt := 2000; updatedAt := 2000 |};
                        salary := None; ssn := None |})
               (or_introl eq_refl) eq_refl).
    + reflexivity.
    + vm_compute. reflexivity.
    + vm_compute. reflexivity.
  - apply (proj2 (proj2 (proj2 (getUser_access_rule Sample.annId user Sample.annId
                                  Sample.office)))
             _ (UserRepository.record (SelectById Sample.annId) Sample.office)).
    vm_compute. reflexivity.
Defined.

Lemma updateSensitiveData_requires_admin_witness :
  UserService.updateSensitiveData (C := Sample.libraries) Sample.bobId
    {| patch_salary := Some (Some (Js.Decimal false 90000 0)); patch_ssn := None |}
    user Sample.bobId Sample.office
  = (Failure (ForbiddenError "Admin access required"), Sample.office).
Proof.
  apply (updateSensitiveData_requires_admin (C := Sample.libraries) Sample.bobId
           {| patch_salary := Some (Some (Js.Decimal false 90000 0));
              patch_ssn := None |}
           user Sample.bobId Sample.office).
  discriminate.
Defined.

Lemma full_view_and_sensitive_update_only_for_admin_witness :
  (exists f,
      UserService.getUser Sample.bobId admin Sample.annId Sample.office
      = (Success (Full f),
         UserRepository.record (SelectById Sample.bobId) Sample.office))
  /\ admin = admin.
Proof.
  assert (H : exists f,
             UserService.getUser Sample.bobId admin Sample.annId Sample.office
             = (Success (Full f),
                UserRepository.record (SelectById Sample.bobId) Sample.office)).
  { eexists. vm_compute. reflexivity. }
  split; [exact H |].
  apply (full_view_and_sensitive_update_only_for_admin (C := Sample.libraries)
           Sample.bobId {| patch_salary := None; patch_ssn := None |}
           admin Sample.annId Sample.office
           (UserRepository.record (SelectById Sample.bobId) Sample.office)).
  left. exact H.
Defined.

Lemma login_error_policy_witness :
  fst (AuthService.login (C := Sample.libraries) "nobody@b.com" "bob-secret"
         Sample.office)
  = Failure (AuthenticationError "Invalid email or password")
  /\ fst (AuthService.login (C := Sample.libraries) "bob@b.com" "guess"
            Sample.office)
     = Failure (AuthenticationError "Invalid email or password")
  /\ fst (AuthService.login (C := Sample.libraries) "cal@b.com" "cal-secret"
            Sample.office)
     = Failure (AuthenticationError "User account is inactive").
Proof.
  split; [| split].
  - rewrite (proj1 (login_error_policy (C := Sample.libraries) "nobody@b.com"
                      "bob-secret" Sample.office)
               (UserRepository.record (SelectByEmail "nobody@b.com") Sample.office)
               eq_refl).
    reflexivity.
  - destruct (login_error_policy (C := Sample.libraries) "bob@b.com" "guess"
                Sample.office) as [_ [Hmismatch _]].
    destruct (UserRepository.findByEmail "bob@b.com" Sample.office)
      as [[[u |] | e |] w'] eqn:Hfind; try (vm_compute in Hfind; discriminate).
    rewrite (Hmismatch u w' eq_refl).
    + reflexivity.
    + vm_compute in Hfind. inversion Hfind. reflexivity.
    + vm_compute in Hfind. inversion Hfind. reflexivity.
  - destruct (login_error_policy (C := Sample.libraries) "cal@b.com" "cal-secret"
                Sample.office) as [_ [_ [Hinactive _]]].
    destruct (UserRepository.findByEmail "cal@b.com" Sample.office)
      as [[[u |] | e |] w'] eqn:Hfind; try (vm_compute in Hfind; discriminate).
    rewrite (Hinactive u w' eq_refl).
    + reflexivity.
    + vm_compute in Hfind. inversion Hfind. reflexivity.
Defined.

Lemma withAuth_ignores_token_witness :
  UserHandlers.getUser Sample.annId
    {| authorization := Some "Bearer s3cret.user.bob@b.com" |} Sample.office
  = UserService.getUser Sample.annId admin "550e8400-e29b-41d4-a716-446655440000"
      Sample.office
  /\ UserHandlers.getUser Sample.annId
       {| authorization := Some "not even a token" |} Sample.office
     = UserService.getUser Sample.annId admin "550e8400-e29b-41d4-a716-446655440000"
         Sample.office
  /\ UserHandlers.getUser Sample.annId {| authorization := Some "Bearer " |}
       Sample.office
     = (Failure (UnauthorizedObject "No token"), Sample.office).
Proof.
  apply (withAuth_ignores_token
           (fun authContext =>
              UserService.getUser Sample.annId (ctx_role authContext)
                (userId authContext))
           {| authorization := Some "Bearer s3cret.user.bob@b.com" |}
           {| authorization := Some "not even a token" |}
           {| authorization := Some "Bearer " |}
           Sample.office).
  - vm_compute. discriminate.
  - vm_compute. discriminate.
  - reflexivity.
Defined.

(** The role of the context follows the stored role, not the role the token
    was signed for: a token signed for role user resolves to role admin once
    the stored role is admin, and a token signed for role admin resolves to
    role user once the stored role is user. *)
Example verifyJwt_follows_stored_role :
  fst (AuthMiddleware.verifyJwt (C := Sample.libraries) "s3cret.user.bob@b.com"
         (Sample.world [Sample.ann; Sample.bob]))
  = Success {| userId := Sample.bobId; ctx_role := user |}
  /\ fst (AuthMiddleware.verifyJwt (C := Sample.libraries) "s3cret.user.bob@b.com"
            (Sample.world [Sample.ann; Sample.withRole "admin" Sample.bob]))
     = Success {| userId := Sample.bobId; ctx_role := admin |}
  /\ fst (AuthMiddleware.verifyJwt (C := Sample.libraries) "s3cret.admin.a@b.com"
            (Sample.world [Sample.withRole "user" Sample.ann; Sample.bob]))
     = Success {| userId := Sample.annId; ctx_role := user |}.
Proof. repeat split; vm_compute; reflexivity. Qed.

(** Through the handlers, a request with any non-empty token is served the
    FullView of any user. *)
Example handler_serves_full_view_for_any_token :
  fst (UserHandlers.getUser Sample.annId
         {| authorization := Some "Bearer s3cret.user.bob@b.com" |} Sample.office)
  = Success (Full {| base := {| id := Sample.annId; email := "a@b.com";
                                name := "Ann"; role := admin; isActive := true;
                                createdAt := 1000; updatedAt := 1000 |};
                     salary := Some (Js.Decimal false 5000000 (-2));
                     ssn := Some "123-45-6789" |}).
Proof. vm_compute. reflexivity. Qed.

(* ------------------------------------------------------------------ *)
(** ** [updateProfile] and the field rules *)
(* ------------------------------------------------------------------ *)

Section ProfileFacts.
Context {C : Collaborators}.

(** A patch with nothing to apply (every field absent or the empty string)
    returns [false] and sends no statement. *)
Lemma updateProfile_nothing_to_apply (targetId : string) (data : UpdateUserProfile)
  (r : RoleName) (uid : string) (w : World) :
  r = admin \/ uid = targetId ->
  UserRepository.hasNoKeys (UserRepository.profileUpdates data) = true ->
  UserService.updateProfile targetId data r uid w = (Success false, w).
Proof.
  intros Hallowed Hnone. unfold UserService.updateProfile.
  assert (Hguard : RoleName_eqb r user && negb (String.eqb uid targetId) = false).
  { destruct Hallowed as [-> | ->]; [reflexivity |].
    rewrite String.eqb_refl. apply andb_false_r. }
  rewrite Hguard. unfold UserRepository.update. rewrite Hnone. reflexivity.
Qed.

(** A non-empty email in the patch is sent to the storage engine as it is:
    no field rule is consulted on the way. *)
Lemma updateProfile_sends_email_unchecked (targetId mail : string) (r : RoleName)
  (uid : string) (w : World) :
  r = admin \/ uid = targetId ->
  mail <> "" ->
  statements
    (snd (UserService.updateProfile targetId
            {| patch_name := None; patch_email := Some mail |} r uid w))
  = UpdateById targetId
      {| set_name := None; set_email := Some mail; set_salary := None;
         set_ssn := None; set_updatedAt := Some (clock w) |}
    :: statements w.
Proof.
  intros Hallowed Hne. unfold UserService.updateProfile.
  assert (Hguard : RoleName_eqb r user && negb (String.eqb uid targetId) = false).
  { destruct Hallowed as [-> | ->]; [reflexivity |].
    rewrite String.eqb_refl. apply andb_false_r. }
  rewrite Hguard. unfold UserRepository.update, UserRepository.profileUpdates.
  destruct mail as [| c rest]; [congruence |]. simpl.
  unfold Effect.flatMap, Effect.now, UserRepository.execute. simpl.
  destruct (engine_ok w); reflexivity.
Qed.

End ProfileFacts.

(** C7, on the code.  The email ["not-an-email"] breaks the email pattern,
    yet [updateProfile] sends it to the storage engine and the row is
    changed; from then on the row no longer maps, so reading it, or listing
    the users, fails with a [DatabaseError]. *)
Example updateProfile_stores_invalid_email :
  let patch := {| patch_name := None; patch_email := Some "not-an-email" |} in
  let after :=
    snd (UserService.updateProfile (C := Sample.libraries) Sample.bobId patch
           user Sample.bobId Sample.office) in
  Schema.valid_email "not-an-email" = false
  /\ statements after
     = [UpdateById Sample.bobId
          {| set_name := None; set_email := Some "not-an-email";
             set_salary := None; set_ssn := None; set_updatedAt := Some 5000 |}]
  /\ map row_email (table after) = ["a@b.com"; "not-an-email"; "cal@b.com"]
  /\ fst (UserService.getUser Sample.bobId user Sample.bobId after)
     = Failure (DatabaseError "Failed to map database row to BaseUser domain model")
  /\ fst (UserService.getAllUsers admin Sample.annId after)
     = Failure (DatabaseError "Failed to map database row to FullUser domain model").
Proof. repeat split; vm_compute; reflexivity. Qed.

(* ------------------------------------------------------------------ *)
(** ** The matcher against the strings of an expression *)
(* ------------------------------------------------------------------ *)

Lemma append_empty_r (s : string) : (s ++ "")%string = s.
Proof. induction s as [| c s IH]; simpl; [reflexivity | rewrite IH; reflexivity]. Qed.

Lemma append_assoc (a b c : string) : ((a ++ b) ++ c)%string = (a ++ (b ++ c))%string.
Proof. induction a as [| x a IH]; simpl; [reflexivity | rewrite IH; reflexivity]. Qed.

Lemma length_append (a b : string) :
  String.length (a ++ b) = (String.length a + String.length b)%nat.
Proof. induction a as [| x a IH]; simpl; [reflexivity | rewrite IH; reflexivity]. Qed.

Lemma append_empty_inv (a b : string) : (a ++ b)%string = "" -> a = "" /\ b = "".
Proof. destruct a; simpl; intros H; [auto | discriminate]. Qed.

Lemma lang_empty_nullable (r : Js.Regex) (s : string) :
  lang r s -> s = "" -> Js.nullable r = true.
Proof.
  induction 1 as [| p c Hp | r1 r2 s1 s2 _ IH1 _ IH2 | r1 r2 s _ IH | r1 r2 s _ IH
                 | r | r s1 s2 _ _ _ _]; intros Hs; simpl; auto.
  - discriminate.
  - apply append_empty_inv in Hs. destruct Hs as [H1 H2].
    rewrite IH1, IH2; auto.
  - rewrite IH; auto.
  - rewrite IH; auto. apply orb_true_r.
Qed.

Lemma nullable_lang (r : Js.Regex) : Js.nullable r = true <-> lang r "".
Proof.
  split.
  - induction r as [| | p | r1 IH1 r2 IH2 | r1 IH1 r2 IH2 | r IH]; simpl; intros H;
      try discriminate.
    + constructor.
    + apply andb_true_iff in H. destruct H as [H1 H2].
      change ""%string with ("" ++ "")%string. constructor; auto.
    + apply orb_true_iff in H. destruct H as [H | H];
        [apply lang_alt_left | apply lang_alt_right]; auto.
    + constructor.
  - intros H. eapply lang_empty_nullable; [exact H | reflexivity].
Qed.

Lemma lang_void (s : string) : ~ lang Js.Void s.
Proof. intros H; inversion H. Qed.

Lemma lang_eps_inv (s : string) : lang Js.Eps s -> s = "".
Proof. intros H; inversion H; reflexivity. Qed.

Lemma lang_cat_inv (r1 r2 : Js.Regex) (s : string) :
  lang (Js.Cat r1 r2) s -> exists s1 s2, s = (s1 ++ s2)%string /\ lang r1 s1 /\ lang r2 s2.
Proof. intros H; inversion H; subst; eauto. Qed.

Lemma lang_alt_inv (r1 r2 : Js.Regex) (s : string) :
  lang (Js.Alt r1 r2) s -> lang r1 s \/ lang r2 s.
Proof. intros H; inversion H; subst; auto. Qed.

(** The smart constructors keep the strings. *)
Lemma lang_cat_smart (r1 r2 : Js.Regex) (s : string) :
  lang (Js.cat r1 r2) s <-> lang (Js.Cat r1 r2) s.
Proof.
  split.
  - intros H.
    destruct r1, r2; simpl in H;
      first [ exact H
            | exfalso; exact (lang_void _ H)
            | change s with ("" ++ s)%string; constructor; [constructor | exact H]
            | rewrite <- (append_empty_r s); constructor; [exact H | constructor] ].
  - intros H. apply lang_cat_inv in H. destruct H as [s1 [s2 [-> [H1 H2]]]].
    destruct r1, r2; simpl;
      first [ exfalso; exact (lang_void _ H1)
            | exfalso; exact (lang_void _ H2)
            | apply lang_eps_inv in H1; subst s1; simpl; exact H2
            | apply lang_eps_inv in H2; subst s2; rewrite append_empty_r; exact H1
            | constructor; assumption ].
Qed.

Lemma lang_alt_smart (r1 r2 : Js.Regex) (s : string) :
  lang (Js.alt r1 r2) s <-> lang (Js.Alt r1 r2) s.
Proof.
  split.
  - intros H.
    destruct r1, r2; simpl in H;
      first [ exact H
            | apply lang_alt_right; exact H
            | apply lang_alt_left; exact H ].
  - intros H. apply lang_alt_inv in H.
    destruct H as [H | H]; destruct r1, r2; simpl;
      first [ exact H
            | exfalso; exact (lang_void _ H)
            | apply lang_alt_left; exact H
            | apply lang_alt_right; exact H ].
Qed.

(** A non-empty string of [r*] starts with a non-empty string of [r]. *)
Lemma lang_star_head (r0 : Js.Regex) (s0 : string) :
  lang r0 s0 ->
  forall r c s, r0 = Js.Star r -> s0 = String c s ->
  exists s1 s2, s = (s1 ++ s2)%string /\ lang r (String c s1) /\ lang (Js.Star r) s2.
Proof.
  induction 1 as [| p c0 Hp | r1 r2 s1 s2 _ _ _ _ | r1 r2 s _ _ | r1 r2 s _ _
                 | r1 | r1 s1 s2 H1 _ H2 IH2]; intros r c t Hr Ht;
    try discriminate.
  inversion Hr; subst r1. destruct s1 as [| c1 s1'].
  - simpl in Ht. exact (IH2 r c t eq_refl Ht).
  - simpl in Ht. inversion Ht; subst. exists s1', s2. auto.
Qed.

Lemma deriv_lang (r : Js.Regex) : forall (c : ascii) (s : string),
  lang (Js.deriv c r) s <-> lang r (String c s).
Proof.
  induction r as [| | p | r1 IH1 r2 IH2 | r1 IH1 r2 IH2 | r IH]; intros c s; simpl.
  - split; intros H; inversion H.
  - split; intros H; inversion H.
  - destruct (p c) eqn:Hp; split; intros H.
    + apply lang_eps_inv in H. subst s. constructor; exact Hp.
    + inversion H; subst. constructor.
    + inversion H.
    + inversion H; congruence.
  - assert (Hleft : forall t, lang (Js.cat (Js.deriv c r1) r2) t <->
                      exists s1 s2, t = (s1 ++ s2)%string
                                    /\ lang r1 (String c s1) /\ lang r2 s2).
    { intros t. rewrite lang_cat_smart. split.
      - intros H. apply lang_cat_inv in H. destruct H as [s1 [s2 [-> [H1 H2]]]].
        exists s1, s2. rewrite <- IH1. auto.
      - intros [s1 [s2 [-> [H1 H2]]]]. constructor; [apply IH1; exact H1 | exact H2]. }
    destruct (Js.nullable r1) eqn:Hnull.
    + rewrite lang_alt_smart. split.
      * intros H. apply lang_alt_inv in H. destruct H as [H | H].
        -- apply Hleft in H. destruct H as [s1 [s2 [-> [H1 H2]]]].
           change (String c (s1 ++ s2)) with (String c s1 ++ s2)%string.
           constructor; assumption.
        -- apply IH2 in H. apply nullable_lang in Hnull.
           change (String c s) with ("" ++ String c s)%string.
           constructor; assumption.
      * intros H. apply lang_cat_inv in H. destruct H as [s1 [s2 [Heq [H1 H2]]]].
        destruct s1 as [| c1 s1'].
        -- simpl in Heq. subst s2. apply lang_alt_right. apply IH2. exact H2.
        -- simpl in Heq. inversion Heq; subst. apply lang_alt_left.
           apply Hleft. exists s1', s2. auto.
    + rewrite Hleft. split.
      * intros [s1 [s2 [-> [H1 H2]]]].
        change (String c (s1 ++ s2)) with (String c s1 ++ s2)%string.
        constructor; assumption.
      * intros H. apply lang_cat_inv in H. destruct H as [s1 [s2 [Heq [H1 H2]]]].
        destruct s1 as [| c1 s1'].
        -- apply nullable_lang in H1. congruence.
        -- simpl in Heq. inversion Heq; subst. exists s1', s2. auto.
  - rewrite lang_alt_smart. split.
    + intros H. apply lang_alt_inv in H. destruct H as [H | H];
        [apply lang_alt_left; apply IH1 | apply lang_alt_right; apply IH2]; exact H.
    + intros H. apply lang_alt_inv in H. destruct H as [H | H];
        [apply lang_alt_left; apply IH1 | apply lang_alt_right; apply IH2]; exact H.
  - rewrite lang_cat_smart. split.
    + intros H. apply lang_cat_inv in H. destruct H as [s1 [s2 [-> [H1 H2]]]].
      change (String c (s1 ++ s2)) with (String c s1 ++ s2)%string.
      constructor; [apply IH; exact H1 | exact H2].
    + intros H.
      destruct (lang_star_head _ _ H r c s eq_refl eq_refl) as [s1 [s2 [-> [H1 H2]]]].
      constructor; [apply IH; exact H1 | exact H2].
Qed.

(** The matcher accepts exactly the strings of the expression. *)
Lemma matches_lang (s : string) : forall r : Js.Regex,
  Js.matches r s = true <-> lang r s.
Proof.
  induction s as [| c s IH]; intros r; simpl.
  - apply nullable_lang.
  - rewrite IH. apply deriv_lang.
Qed.

Lemma allChars_append (p : ascii -> bool) (a b : string) :
  allChars p (a ++ b) = allChars p a && allChars p b.
Proof.
  induction a as [| c a IH]; simpl; [reflexivity |].
  rewrite IH. apply andb_assoc.
Qed.

Lemma lang_class_iff (p : ascii -> bool) (s : string) :
  lang (Js.Class p) s <-> exists c, s = String c "" /\ p c = true.
Proof.
  split.
  - intros H; inversion H; subst. eauto.
  - intros [c [-> Hp]]. constructor; exact Hp.
Qed.

Lemma lang_char_iff (k : ascii) (s : string) :
  lang (Js.Class (Js.is_char k)) s <-> s = String k "".
Proof.
  rewrite lang_class_iff. unfold Js.is_char. split.
  - intros [c [-> Hc]]. apply Ascii.eqb_eq in Hc. subst c. reflexivity.
  - intros ->. exists k. split; [reflexivity | apply Ascii.eqb_refl].
Qed.

Lemma lang_times_class (p : ascii -> bool) (n : nat) : forall s : string,
  lang (Js.times n (Js.Class p)) s <-> String.length s = n /\ allChars p s = true.
Proof.
  induction n as [| n IH]; intros s; simpl.
  - split.
    + intros H. apply lang_eps_inv in H. subst s. auto.
    + intros [Hlen _]. destruct s; [constructor | discriminate].
  - split.
    + intros H. apply lang_cat_inv in H. destruct H as [s1 [s2 [-> [H1 H2]]]].
      apply lang_class_iff in H1. destruct H1 as [c [-> Hp]].
      apply IH in H2. destruct H2 as [Hlen Hall]. simpl.
      rewrite Hlen, Hp, Hall. auto.
    + intros [Hlen Hall]. destruct s as [| c s]; [discriminate |].
      simpl in Hlen, Hall. apply andb_true_iff in Hall. destruct Hall as [Hp Hall].
      change (String c s) with (String c "" ++ s)%string.
      constructor; [constructor; exact Hp |]. apply IH. split; [lia | exact Hall].
Qed.

Lemma lang_star_class_all (r0 : Js.Regex) (s : string) :
  lang r0 s -> forall p, r0 = Js.Star (Js.Class p) -> allChars p s = true.
Proof.
  induction 1 as [| q c Hq | r1 r2 s1 s2 _ _ _ _ | r1 r2 s _ _ | r1 r2 s _ _
                 | r1 | r1 s1 s2 H1 _ H2 IH2]; intros p Hr; try discriminate.
  - reflexivity.
  - inversion Hr; subst r1. rewrite allChars_append, (IH2 p eq_refl).
    apply lang_class_iff in H1. destruct H1 as [c [-> Hp]]. simpl. rewrite Hp.
    reflexivity.
Qed.

Lemma lang_star_class (p : ascii -> bool) (s : string) :
  lang (Js.Star (Js.Class p)) s <-> allChars p s = true.
Proof.
  split.
  - intros H. eapply lang_star_class_all; [exact H | reflexivity].
  - induction s as [| c s IH]; simpl; intros H; [constructor |].
    apply andb_true_iff in H. destruct H as [Hp Hall].
    change (String c s) with (String c "" ++ s)%string.
    constructor; [constructor; exact Hp | apply IH; exact Hall].
Qed.

Lemma lang_plus_class (p : ascii -> bool) (s : string) :
  lang (Js.plus (Js.Class p)) s <-> s <> "" /\ allChars p s = true.
Proof.
  unfold Js.plus. split.
  - intros H. apply lang_cat_inv in H. destruct H as [s1 [s2 [-> [H1 H2]]]].
    apply lang_class_iff in H1. destruct H1 as [c [-> Hp]].
    apply lang_star_class in H2. simpl. rewrite Hp, H2. split; [discriminate | reflexivity].
  - intros [Hne Hall]. destruct s as [| c s]; [congruence |].
    simpl in Hall. apply andb_true_iff in Hall. destruct Hall as [Hp Hall].
    change (String c s) with (String c "" ++ s)%string.
    constructor; [constructor; exact Hp | apply lang_star_class; exact Hall].
Qed.

(** X1. The rule on [ssn] accepts exactly three digits, a dash, two digits,
    a dash and four digits. *)
Theorem ssn_rule (s : string) :
  Schema.valid_ssn (Some s) = true <->
  exists a b c,
    s = (a ++ "-" ++ b ++ "-" ++ c)%string
    /\ String.length a = 3%nat /\ String.length b = 2%nat /\ String.length c = 4%nat
    /\ allChars Js.is_digit a = true /\ allChars Js.is_digit b = true
    /\ allChars Js.is_digit c = true.
Proof.
  unfold Schema.valid_ssn. rewrite matches_lang. unfold Patterns.ssn. split.
  - intros H.
    apply lang_cat_inv in H. destruct H as [a [t1 [-> [Ha H]]]].
    apply lang_cat_inv in H. destruct H as [d1 [t2 [-> [Hd1 H]]]].
    apply lang_cat_inv in H. destruct H as [b [t3 [-> [Hb H]]]].
    apply lang_cat_inv in H. destruct H as [d2 [c [-> [Hd2 Hc]]]].
    apply lang_char_iff in Hd1, Hd2. subst d1 d2.
    apply lang_times_class in Ha, Hb, Hc.
    exists a, b, c. intuition.
  - intros [a [b [c [-> [La [Lb [Lc [Ha [Hb Hc]]]]]]]]].
    constructor; [apply lang_times_class; auto |].
    constructor; [apply lang_char_iff; reflexivity |].
    constructor; [apply lang_times_class; auto |].
    constructor; [apply lang_char_iff; reflexivity |].
    apply lang_times_class; auto.
Qed.

Lemma ssn_rule_witness :
  Schema.valid_ssn (Some "123-45-6789") = true
  /\ ~ (exists a b c,
          "123456789" = (a ++ "-" ++ b ++ "-" ++ c)%string
          /\ String.length a = 3%nat /\ String.length b = 2%nat
          /\ String.length c = 4%nat
          /\ allChars Js.is_digit a = true /\ allChars Js.is_digit b = true
          /\ allChars Js.is_digit c = true).
Proof.
  split.
  - apply (proj2 (ssn_rule "123-45-6789")).
    exists "123"%string, "45"%string, "6789"%string. repeat split.
  - intros H. apply (proj2 (ssn_rule "123456789")) in H. vm_compute in H. discriminate.
Defined.

(** X2. The rule on [email] accepts exactly the strings made of a local
    part, [@], a domain, a dot and an ending, where each of the three is
    non-empty and has neither white space nor [@]; so an accepted email has
    one [@] only, and a dot after it. *)
Theorem email_rule (s : string) :
  Schema.valid_email s = true <->
  exists l d t,
    s = (l ++ "@" ++ d ++ "." ++ t)%string
    /\ l <> "" /\ d <> "" /\ t <> ""
    /\ allChars Patterns.not_space_or_at l = true
    /\ allChars Patterns.not_space_or_at d = true
    /\ allChars Patterns.not_space_or_at t = true.
Proof.
  unfold Schema.valid_email. rewrite matches_lang. unfold Patterns.email. split.
  - intros H.
    apply lang_cat_inv in H. destruct H as [l [t1 [-> [Hl H]]]].
    apply lang_cat_inv in H. destruct H as [a [t2 [-> [Ha H]]]].
    apply lang_cat_inv in H. destruct H as [d [t3 [-> [Hd H]]]].
    apply lang_cat_inv in H. destruct H as [dot [t [-> [Hdot Ht]]]].
    apply lang_char_iff in Ha, Hdot. subst a dot.
    apply lang_plus_class in Hl, Hd, Ht.
    exists l, d, t. intuition.
  - intros [l [d [t [-> [Nl [Nd [Nt [Hl [Hd Ht]]]]]]]]].
    constructor; [apply lang_plus_class; auto |].
    constructor; [apply lang_char_iff; reflexivity |].
    constructor; [apply lang_plus_class; auto |].
    constructor; [apply lang_char_iff; reflexivity |].
    apply lang_plus_class; auto.
Qed.

Lemma email_rule_witness :
  Schema.valid_email "ann.lee@mail.example.org" = true.
Proof.
  apply (proj2 (email_rule "ann.lee@mail.example.org")).
  exists "ann.lee"%string, "mail.example"%string, "org"%string.
  repeat split; discriminate.
Defined.

(** X3. The rule on [id] ([Schema.UUID]) accepts exactly five groups of 8,
    4, 4, 4 and 12 hexadecimal digits, in either case, joined by dashes; an
    accepted id is 36 code units long. *)
Theorem uuid_rule (s : string) :
  Schema.valid_id s = true <->
  exists a b c d e,
    s = (a ++ "-" ++ b ++ "-" ++ c ++ "-" ++ d ++ "-" ++ e)%string
    /\ String.length a = 8%nat /\ String.length b = 4%nat
    /\ String.length c = 4%nat /\ String.length d = 4%nat
    /\ String.length e = 12%nat
    /\ allChars Js.is_hex (a ++ b ++ c ++ d ++ e) = true
    /\ String.length s = 36%nat.
Proof.
  unfold Schema.valid_id. rewrite matches_lang. unfold Patterns.uuid.
  cbv zeta. split.
  - intros H.
    apply lang_cat_inv in H. destruct H as [a [t1 [-> [Ha H]]]].
    apply lang_cat_inv in H. destruct H as [d1 [t2 [-> [Hd1 H]]]].
    apply lang_cat_inv in H. destruct H as [b [t3 [-> [Hb H]]]].
    apply lang_cat_inv in H. destruct H as [d2 [t4 [-> [Hd2 H]]]].
    apply lang_cat_inv in H. destruct H as [c [t5 [-> [Hc H]]]].
    apply lang_cat_inv in H. destruct H as [d3 [t6 [-> [Hd3 H]]]].
    apply lang_cat_inv in H. destruct H as [d [t7 [-> [Hd H]]]].
    apply lang_cat_inv in H. destruct H as [d4 [e [-> [Hd4 He]]]].
    apply lang_char_iff in Hd1, Hd2, Hd3, Hd4. subst d1 d2 d3 d4.
    apply lang_times_class in Ha, Hb, Hc, Hd, He.
    destruct Ha as [La Ha], Hb as [Lb Hb], Hc as [Lc Hc], Hd as [Ld Hd],
             He as [Le He].
    exists a, b, c, d, e. repeat split; auto.
    + rewrite !allChars_append, Ha, Hb, Hc, Hd, He. reflexivity.
    + repeat (rewrite length_append; simpl). lia.
  - intros [a [b [c [d [e [-> [La [Lb [Lc [Ld [Le [Hall _]]]]]]]]]]]].
    rewrite !allChars_append in Hall.
    repeat (apply andb_true_iff in Hall; destruct Hall as [? Hall]).
    constructor; [apply lang_times_class; auto |].
    constructor; [apply lang_char_iff; reflexivity |].
    constructor; [apply lang_times_class; auto |].
    constructor; [apply lang_char_iff; reflexivity |].
    constructor; [apply lang_times_class; auto |].
    constructor; [apply lang_char_iff; reflexivity |].
    constructor; [apply lang_times_class; auto |].
    constructor; [apply lang_char_iff; reflexivity |].
    apply lang_times_class; auto.
Qed.

Lemma uuid_rule_witness :
  String.length Sample.bobId = 36%nat
  /\ Schema.valid_id "7C9E6679-7425-40DE-944B-E07FC1F90AE7" = true.
Proof.
  split.
  - destruct (proj1 (uuid_rule Sample.bobId) eq_refl)
      as [a [b [c [d [e [_ [_ [_ [_ [_ [_ [_ Hlen]]]]]]]]]]]].
    exact Hlen.
  - apply (proj2 (uuid_rule "7C9E6679-7425-40DE-944B-E07FC1F90AE7")).
    exists "7C9E6679"%string, "7425"%string, "40DE"%string, "944B"%string,
      "E07FC1F90AE7"%string.
    repeat split.
Defined.

(* ------------------------------------------------------------------ *)
(** ** When a row maps *)
(* ------------------------------------------------------------------ *)

Lemma RoleName_decode_iff (s : string) (r : RoleName) :
  RoleName_decode s = Some r <-> s = RoleName_encode r.
Proof.
  unfold RoleName_decode. split.
  - destruct (String.eqb_spec s "admin") as [-> | _].
    + intros H; inversion H; reflexivity.
    + destruct (String.eqb_spec s "user") as [-> | _]; [| discriminate].
      intros H; inversion H; reflexivity.
  - intros ->. destruct r; reflexivity.
Qed.

(** X4. [toBaseUser] maps a row exactly when its id, email and name pass
    their rules and its role is one of the two role names; the view then
    holds the row's own values.  In every other case it fails with the
    mapper's [DatabaseError]; it never yields a view of a row that breaks a
    rule. *)
Theorem toBaseUser_iff (row : UserRow) (b : BaseUser) :
  (UserMapper.toBaseUser row = Success b <->
   Schema.valid_id (row_id row) = true
   /\ Schema.valid_email (row_email row) = true
   /\ Schema.valid_name (row_name row) = true
   /\ row_role row = RoleName_encode (role b)
   /\ id b = row_id row /\ email b = row_email row /\ name b = row_name row
   /\ isActive b = row_isActive row
   /\ createdAt b = row_createdAt row /\ updatedAt b = row_updatedAt row)
  /\ (UserMapper.toBaseUser row
      = Failure (DatabaseError "Failed to map database row to BaseUser domain model")
      \/ exists b', UserMapper.toBaseUser row = Success b').
Proof.
  unfold UserMapper.toBaseUser, Schema.decodeBaseUser. simpl. split.
  - split.
    + destruct (RoleName_decode (row_role row)) as [r |] eqn:Hrole; simpl;
        [| discriminate].
      destruct (Schema.valid_id (row_id row)); simpl; [| discriminate].
      destruct (Schema.valid_email (row_email row)); simpl; [| discriminate].
      destruct (Schema.valid_name (row_name row)); simpl; [| discriminate].
      intros H; inversion H; subst b; simpl.
      apply RoleName_decode_iff in Hrole. repeat split; auto.
    + intros [Hid [Hmail [Hname [Hrole [E1 [E2 [E3 [E4 [E5 E6]]]]]]]]].
      apply RoleName_decode_iff in Hrole. rewrite Hrole, Hid, Hmail, Hname. simpl.
      destruct b; simpl in *; subst; reflexivity.
  - destruct (RoleName_decode (row_role row)) as [r |]; simpl; [| left; reflexivity].
    destruct (Schema.valid_id (row_id row) && Schema.valid_email (row_email row)
              && Schema.valid_name (row_name row)); simpl;
      [right; eexists; reflexivity | left; reflexivity].
Qed.

Lemma toBaseUser_iff_witness :
  UserMapper.toBaseUser (Sample.withRole "owner" Sample.bob)
  = Failure (DatabaseError "Failed to map database row to BaseUser domain model")
  /\ Schema.valid_email (row_email Sample.cal) = true.
Proof.
  split.
  - vm_compute. reflexivity.
  - apply (proj1 (proj1 (toBaseUser_iff Sample.cal
                           {| id := Sample.calId; email := "cal@b.com";
                              name := "Cal"; role := user; isActive := false;
                              createdAt := 3000; updatedAt := 3000 |}))).
    vm_compute. reflexivity.
Defined.

(** X5. The three mappers extend one another, as the schemas do: a row maps
    to a FullUser exactly when it maps to a BaseUser and its salary (read as
    the mapper reads it) and ssn pass their rules; it maps to a
    UserWithPassword exactly when it maps to a FullUser and the stored
    password has at least 8 code units. *)
Theorem mappers_extend (row : UserRow) (u : UserWithPassword) :
  (UserMapper.toFullUser row = Success (full u) <->
   UserMapper.toBaseUser row = Success (base (full u))
   /\ salary (full u) = UserMapper.salaryOf row
   /\ ssn (full u) = row_ssn row
   /\ Schema.valid_salary (UserMapper.salaryOf row) = true
   /\ Schema.valid_ssn (row_ssn row) = true)
  /\ (UserMapper.toUserWithPassword row = Success u <->
      UserMapper.toFullUser row = Success (full u)
      /\ password u = row_password row
      /\ (8 <= String.length (row_password row))%nat).
Proof.
  split.
  - split.
    + intros H. apply toFullUser_success in H.
      destruct H as [Hb [Hs [Hn [Vs Vn]]]].
      unfold UserMapper.toBaseUser. rewrite Hb. auto.
    + intros [Hb [Hs [Hn [Vs Vn]]]].
      unfold UserMapper.toBaseUser in Hb.
      unfold UserMapper.toFullUser, Schema.decodeFullUser.
      rewrite decodeBaseUser_common.
      destruct (Schema.decodeBaseUser _) as [b |]; simpl in *; [| discriminate].
      rewrite Vs, Vn. simpl. inversion Hb; subst b.
      destruct (full u); simpl in *; subst; reflexivity.
  - unfold UserMapper.toUserWithPassword, Schema.decodeUserWithPassword,
      UserMapper.toFullUser.
    assert (Hsame :
      Schema.decodeFullUser
        (UserMapper.common row (Some (UserMapper.salaryOf row))
           (Some (row_ssn row)) (Some (row_password row)))
      = Schema.decodeFullUser
          (UserMapper.common row (Some (UserMapper.salaryOf row))
             (Some (row_ssn row)) None)) by reflexivity.
    rewrite Hsame. unfold Schema.valid_password. cbn -[Nat.leb String.length].
    destruct (Schema.decodeFullUser _) as [f |]; cbn -[Nat.leb String.length].
    + destruct (Nat.leb_spec 8 (String.length (row_password row))) as [Hlen | Hlen];
        cbn -[Nat.leb String.length]; split.
      * intros H; injection H as <-; simpl; auto.
      * intros [Hf [Hp _]]. inversion Hf; subst f.
        destruct u; simpl in *; subst; reflexivity.
      * discriminate.
      * intros [_ [_ Hge]]. lia.
    + split; [discriminate | intros [H _]; discriminate].
Qed.

Lemma mappers_extend_witness :
  UserMapper.toBaseUser Sample.ann
  = Success {| id := Sample.annId; email := "a@b.com"; name := "Ann";
               role := admin; isActive := true;
               createdAt := 1000; updatedAt := 1000 |}
  /\ (8 <= String.length (row_password Sample.ann))%nat.
Proof.
  pose (f := {| base := {| id := Sample.annId; email := "a@b.com"; name := "Ann";
                           role := admin; isActive := true;
                           createdAt := 1000; updatedAt := 1000 |};
                salary := Some (Js.Decimal false 5000000 (-2));
                ssn := Some "123-45-6789" |}).
  pose (u := {| full := f; password := "hashed:ann-secret" |}).
  destruct (mappers_extend Sample.ann u) as [Hfull Hpass].
  assert (Hu : UserMapper.toUserWithPassword Sample.ann = Success u)
    by (vm_compute; reflexivity).
  apply Hpass in Hu. destruct Hu as [Hf [_ Hlen]].
  apply Hfull in Hf. destruct Hf as [Hb _]. split; [exact Hb | exact Hlen].
Defined.

Lemma read_digits_count (s : string) : forall (acc : N) (count : nat),
  (count <= snd (fst (Js.read_digits s acc count)))%nat.
Proof.
  induction s as [| c s IH]; intros acc count; cbn -[N.mul N.add]; [lia |].
  destruct (Js.is_digit c); cbn -[N.mul N.add]; [| lia].
  specialize (IH (10 * acc + Js.digit_value c)%N (S count)). lia.
Qed.

(** A string that starts with a decimal digit is read as a finite number
    without a sign. *)
Lemma parseFloat_leading_digit (c : ascii) (rest : string) :
  Js.is_digit c = true ->
  exists m e, Js.parseFloat (String c rest) = Js.Decimal false m e.
Proof.
  intros Hd. unfold Js.parseFloat.
  assert (Hcode : (48 <= Js.code c <= 57)%N).
  { unfold Js.is_digit in Hd. apply andb_true_iff in Hd.
    destruct Hd as [H1 H2]. apply N.leb_le in H1, H2. lia. }
  assert (Hspace : Js.is_space c = false).
  { unfold Js.is_space. apply orb_false_iff. split; [apply orb_false_iff; split |].
    - apply andb_false_iff. right. apply N.leb_gt. lia.
    - apply N.eqb_neq. lia.
    - apply N.eqb_neq. lia. }
  assert (Hshape : forall k : ascii,
             (Js.code k < 48)%N \/ (57 < Js.code k)%N -> c <> k).
  { intros k Hk ->. lia. }
  assert (Hminus : c <> "-"%char) by (apply Hshape; vm_compute; left; reflexivity).
  assert (Hplus : c <> "+"%char) by (apply Hshape; vm_compute; left; reflexivity).
  assert (HI : "I"%char <> c)
    by (apply not_eq_sym, Hshape; vm_compute; right; reflexivity).
  assert (Hun : exists m e,
             Js.read_unsigned false (String c rest) = Js.Decimal false m e).
  { unfold Js.read_unsigned. cbn [Js.strip_prefix].
    rewrite (proj2 (Ascii.eqb_neq _ _) HI).
    cbn [Js.read_digits]. rewrite Hd.
    pose proof (read_digits_count rest (10 * 0 + Js.digit_value c)%N 1) as Hcount.
    destruct (Js.read_digits rest (10 * 0 + Js.digit_value c)%N 1)
      as [[v n] tail]. cbn [fst snd] in Hcount.
    destruct tail as [| t tail']; [destruct n; [lia | eauto] |].
    destruct t as [[] [] [] [] [] [] [] []];
      first [ destruct n; [lia | eexists; eexists; reflexivity]
            | destruct (Js.read_digits tail' v 0) as [[v' n'] tail''];
              destruct n; [lia | eexists; eexists; reflexivity] ]. }
  cbn [Js.skip_space]. rewrite Hspace.
  destruct c as [[] [] [] [] [] [] [] []]; first [exact Hun | congruence].
Qed.

(** A number read from a literal without a sign is not negative. *)
Lemma Decimal_unsigned (m : N) (e : Z) :
  Js.Decimal false m e = Js.Infinity false
  \/ exists significand exponent,
       Js.Decimal false m e = Js.Finite false significand exponent.
Proof.
  unfold Js.Decimal. destruct (m =? 0)%N; [right; eauto |]. cbv zeta.
  match goal with
  | |- context [if ?c then (2 ^ 52, _) else _] => destruct c
  end;
  match goal with
  | |- context [if ?c then Js.Infinity _ else _] => destruct c
  end; eauto.
Qed.

(** X6. A stored salary that starts with a decimal digit, which is how the
    storage engine writes a non-negative [numeric], is never the reason a
    row fails to map: when the rest of the row maps, [toFullUser] succeeds
    and the salary is the number [parseFloat] reads from the string, which
    is without a sign: a finite number, or the positive infinity when the
    literal is too large for a finite one. *)
Theorem salary_with_leading_digit_maps (row : UserRow) (c : ascii) (rest : string)
  (b : BaseUser) :
  row_salary row = Some (String c rest) ->
  Js.is_digit c = true ->
  UserMapper.toBaseUser row = Success b ->
  Schema.valid_ssn (row_ssn row) = true ->
  exists n,
    UserMapper.toFullUser row
    = Success {| base := b; salary := Some n; ssn := row_ssn row |}
    /\ n = Js.parseFloat (String c rest)
    /\ (n = Js.Infinity false
        \/ exists significand exponent, n = Js.Finite false significand exponent).
Proof.
  intros Hsal Hd Hb Hssn.
  destruct (parseFloat_leading_digit c rest Hd) as [m [e Hparse]].
  pose proof (Decimal_unsigned m e) as Hshape. rewrite <- Hparse in Hshape.
  exists (Js.parseFloat (String c rest)).
  assert (Hof : UserMapper.salaryOf row = Some (Js.parseFloat (String c rest))).
  { unfold UserMapper.salaryOf. rewrite Hsal. reflexivity. }
  assert (Hge : Js.ge_zero (Js.parseFloat (String c rest)) = true).
  { destruct Hshape as [-> | [sg [ex ->]]]; reflexivity. }
  split; [| split; [reflexivity | exact Hshape]].
  unfold UserMapper.toBaseUser in Hb.
  unfold UserMapper.toFullUser, Schema.decodeFullUser.
  rewrite decodeBaseUser_common.
  destruct (Schema.decodeBaseUser _) as [b' |]; [| discriminate].
  cbn [UserMapper.common raw_salary raw_ssn].
  inversion Hb; subst b'. rewrite Hof. unfold Schema.valid_salary.
  rewrite Hge, Hssn. reflexivity.
Qed.

Lemma salary_with_leading_digit_maps_witness :
  exists n,
    UserMapper.toFullUser (Sample.withSalary (Some "1e400") Sample.cal)
    = Success {| base := {| id := Sample.calId; email := "cal@b.com";
                            name := "Cal"; role := user; isActive := false;
                            createdAt := 3000; updatedAt := 3000 |};
                 salary := Some n; ssn := None |}
    /\ n = Js.parseFloat "1e400"
    /\ (n = Js.Infinity false
        \/ exists significand exponent, n = Js.Finite false significand exponent).
Proof.
  apply (salary_with_leading_digit_maps (Sample.withSalary (Some "1e400") Sample.cal)
           "1"%char "e400").
  - reflexivity.
  - reflexivity.
  - vm_compute. reflexivity.
  - reflexivity.
Defined.

(* ------------------------------------------------------------------ *)
(** ** What the lookups return *)
(* ------------------------------------------------------------------ *)

(** A view holds the id and the active flag of the row it was mapped from. *)
Lemma toUserByRole_origin (row : UserRow) (r : RoleName) (v : UserView) :
  UserMapper.toUserByRole row r = Success v ->
  id (viewBase v) = row_id row /\ isActive (viewBase v) = row_isActive row.
Proof.
  assert (Hdec : forall b,
             Schema.decodeBaseUser (UserMapper.common row None None None) = Some b ->
             id b = row_id row /\ isActive b = row_isActive row).
  { unfold Schema.decodeBaseUser. simpl. intros b.
    destruct (RoleName_decode (row_role row)); [| discriminate].
    destruct (Schema.valid_id (row_id row) && Schema.valid_email (row_email row)
              && Schema.valid_name (row_name row)); [| discriminate].
    intros H; inversion H; subst; simpl; auto. }
  destruct r; simpl.
  - destruct (UserMapper.toFullUser row) as [f | e |] eqn:Hf; simpl; try discriminate.
    intros H; inversion H; subst v. simpl.
    apply toFullUser_success in Hf. destruct Hf as [Hb _]. apply Hdec; exact Hb.
  - unfold UserMapper.toBaseUser.
    destruct (Schema.decodeBaseUser _) as [b |] eqn:Hb; simpl; try discriminate.
    intros H; inversion H; subst v. simpl. apply Hdec; reflexivity.
Qed.

Lemma toUserWithPassword_origin (row : UserRow) (u : UserWithPassword) :
  UserMapper.toUserWithPassword row = Success u ->
  id (base (full u)) = row_id row
  /\ email (base (full u)) = row_email row
  /\ isActive (base (full u)) = row_isActive row
  /\ row_role row = RoleName_encode (role (base (full u)))
  /\ password u = row_password row.
Proof.
  unfold UserMapper.toUserWithPassword, Schema.decodeUserWithPassword,
    Schema.decodeFullUser, Schema.decodeBaseUser.
  simpl.
  destruct (RoleName_decode (row_role row)) as [r |] eqn:Hrole; simpl;
    [| discriminate].
  destruct (Schema.valid_id (row_id row) && Schema.valid_email (row_email row)
            && Schema.valid_name (row_name row)); simpl; [| discriminate].
  destruct (Schema.valid_salary _ && Schema.valid_ssn _); simpl; [| discriminate].
  destruct (Schema.valid_password _); simpl; [| discriminate].
  intros H; inversion H; subst; simpl.
  apply RoleName_decode_iff in Hrole. auto.
Qed.

Lemma filter_head_in {A : Type} (p : A -> bool) (l : list A) (x : A) (rest : list A) :
  filter p l = x :: rest -> In x l /\ p x = true.
Proof.
  intros H. apply filter_In. rewrite H. left; reflexivity.
Qed.

Lemma active_filter (rows : list UserRow) :
  filter (fun row => Bool.eqb (row_isActive row) true) rows
  = filter row_isActive rows.
Proof.
  apply filter_ext. intros row. destruct (row_isActive row); reflexivity.
Qed.

Section LookupFacts.
Context {C : Collaborators}.

(** X7. [getAllUsers] lists exactly the active users, in the order of the
    table, whoever asks: the ids of the views are the ids of the rows with
    [isActive = true], every view is an active user's, all views are of the
    kind of the caller's role, and the caller's own id plays no part. *)
Theorem getAllUsers_lists_active_users (r : RoleName) (uid : string)
  (w w' : World) (views : list UserView) :
  UserService.getAllUsers r uid w = (Success views, w') ->
  map (fun v => id (viewBase v)) views
  = map row_id (filter row_isActive (table w))
  /\ Forall (fun v => isActive (viewBase v) = true) views
  /\ Forall (fun v => isFull v = RoleName_eqb r admin) views
  /\ (forall other, UserService.getAllUsers r other w = (Success views, w')).
Proof.
  unfold UserService.getAllUsers. intros H. pose proof H as Hrun.
  rewrite findAll_run in H. simpl in H.
  destruct (engine_ok w); [| discriminate].
  destruct (UserMapper.toUsersByRole _ r) as [vs | e |] eqn:Hmap; try discriminate.
  inversion H; subst vs. clear H.
  pose proof (toUsersByRole_kind _ _ _ Hmap) as Hkind.
  apply toUsersByRole_pointwise in Hmap. rewrite active_filter in Hmap.
  assert (Hact : Forall (fun row => row_isActive row = true)
                   (filter row_isActive (table w))).
  { apply Forall_forall. intros row Hin. apply filter_In in Hin. tauto. }
  split; [| split; [| split]].
  - clear Hkind Hrun Hact.
    induction Hmap as [| row v rows vs Hv _ IH]; simpl; [reflexivity |].
    apply toUserByRole_origin in Hv. destruct Hv as [Hid _].
    rewrite Hid, IH. reflexivity.
  - clear Hkind Hrun.
    induction Hmap as [| row v rows vs Hv _ IH]; constructor.
    + apply toUserByRole_origin in Hv. destruct Hv as [_ Ha].
      inversion Hact; subst. congruence.
    + apply IH. inversion Hact; assumption.
  - exact Hkind.
  - intros other. rewrite Hrun. congruence.
Qed.

(** X8. A lookup returns the record that was asked for: the view [findById]
    and [getUser] return has an id that is the requested uuid (the same
    bytes, whatever the spelling of the request), the user [findByEmail]
    returns has the requested email, and a caller of role user who gets a
    view from [getUser] gets the view whose id is its own uuid. *)
Theorem lookups_return_the_requested_record (target mail uid : string)
  (r : RoleName) (w : World) :
  (forall v w',
      UserRepository.findById target r w = (Success (Some v), w') ->
      Uuid.same (id (viewBase v)) target = true)
  /\ (forall u w',
         UserRepository.findByEmail mail w = (Success (Some u), w') ->
         email (base (full u)) = mail)
  /\ (forall v w',
         UserService.getUser target r uid w = (Success v, w') ->
         Uuid.same (id (viewBase v)) target = true
         /\ (r = user -> Uuid.same (id (viewBase v)) uid = true)).
Proof.
  split; [| split].
  - intros v w'. rewrite findById_run. simpl.
    destruct (engine_ok w); [| discriminate].
    destruct (filter _ (table w)) as [| row rest] eqn:Hrows; [discriminate |].
    destruct (UserMapper.toUserByRole row r) as [v' | e |] eqn:Hmap; try discriminate.
    intros H; inversion H; subst v'.
    apply filter_head_in in Hrows. destruct Hrows as [_ Hid].
    apply toUserByRole_origin in Hmap. destruct Hmap as [Hv _].
    rewrite Hv. exact Hid.
  - intros u w'. rewrite findByEmail_run. simpl.
    destruct (engine_ok w); [| discriminate].
    destruct (filter _ (table w)) as [| row rest] eqn:Hrows; [discriminate |].
    destruct (UserMapper.toUserWithPassword row) as [u' | e |] eqn:Hmap;
      try discriminate.
    intros H; inversion H; subst u'.
    apply filter_head_in in Hrows. destruct Hrows as [_ Hm].
    apply String.eqb_eq in Hm.
    apply toUserWithPassword_origin in Hmap. destruct Hmap as [_ [He _]]. congruence.
  - intros v w' H. apply getUser_success in H.
    destruct H as [Hallowed [row [rest [Hrows Hmap]]]].
    apply filter_head_in in Hrows. destruct Hrows as [_ Hid].
    apply toUserByRole_origin in Hmap. destruct Hmap as [Hv _].
    assert (Hsame : Uuid.same (id (viewBase v)) target = true)
      by (rewrite Hv; exact Hid).
    split; [exact Hsame |].
    intros Hr. destruct Hallowed as [Ha | Hu]; [congruence | subst uid; exact Hsame].
Qed.

End LookupFacts.

Lemma getAllUsers_lists_active_users_witness :
  map row_id (filter row_isActive (table Sample.office))
  = [Sample.annId; Sample.bobId].
Proof.
  pose (views :=
    [Base {| id := Sample.annId; email := "a@b.com"; name := "Ann";
             role := admin; isActive := true; createdAt := 1000; updatedAt := 1000 |};
     Base {| id := Sample.bobId; email := "bob@b.com"; name := "Bob";
             role := user; isActive := true; createdAt := 2000; updatedAt := 2000 |}]).
  destruct (getAllUsers_lists_active_users user Sample.bobId Sample.office
              (UserRepository.record SelectActive Sample.office) views)
    as [Hids _].
  - vm_compute. reflexivity.
  - rewrite <- Hids. reflexivity.
Defined.

Lemma lookups_return_the_requested_record_witness :
  Uuid.same
    (id (viewBase (Full {| base := {| id := Sample.bobId; email := "bob@b.com";
                                      name := "Bob"; role := user;
                                      isActive := true;
                                      createdAt := 2000; updatedAt := 2000 |};
                           salary := None; ssn := None |})))
    "{7C9E6679-7425-40DE-944B-E07FC1F90AE7}"
  = true.
Proof.
  refine (proj1 (proj2 (proj2 (lookups_return_the_requested_record
                                 "{7C9E6679-7425-40DE-944B-E07FC1F90AE7}"
                                 "bob@b.com" Sample.annId admin Sample.office))
                   _ (UserRepository.record
                        (SelectById "{7C9E6679-7425-40DE-944B-E07FC1F90AE7}")
                        Sample.office)
                   _)).
  vm_compute. reflexivity.
Defined.

(* ------------------------------------------------------------------ *)
(** ** Login and the resolver against the table *)
(* ------------------------------------------------------------------ *)

Section ResolverFacts.
Context {C : Collaborators}.

(** What [verifyJwt] comes to on a non-empty token, down to the rows of the
    table. *)
Lemma verifyJwt_table_run (c : ascii) (rest : string) (w : World) :
  AuthMiddleware.verifyJwt (String c rest) w
  = match jwt_verify (String c rest) (secretOf w) (clock w) with
    | None => (Failure (AuthenticationError "Invalid or expired token"), w)
    | Some payload =>
        let w' := UserRepository.record (SelectByEmail (claim_email payload)) w in
        if engine_ok w then
          match filter (fun row => String.eqb (row_email row) (claim_email payload))
                  (table w) with
          | [] => (Failure (AuthenticationError "User not found"), w')
          | row :: _ =>
              match UserMapper.toUserWithPassword row with
              | Success u =>
                  if isActive (base (full u))
                  then (Success {| userId := id (base (full u));
                                   ctx_role := role (base (full u)) |}, w')
                  else (Failure (AuthenticationError "User account is inactive"), w')
              | Failure e => (Failure e, w')
              | Die => (Die, w')
              end
          end
        else (Failure
                (DatabaseError "Failed to fetch user by email from database"), w')
    end.
Proof.
  unfold AuthMiddleware.verifyJwt. cbn [Js.truthy negb orb String.eqb].
  unfold Effect.flatMap at 1. unfold Effect.configWithDefault, secretOf.
  destruct (JWT_SECRET (env w)) as [secret |];
    unfold Effect.flatMap at 1; unfold tryAt;
    (destruct (jwt_verify _ _ (clock w)) as [payload |]; [| reflexivity]);
    unfold Effect.flatMap at 1; rewrite findByEmail_run; cbv zeta;
    (destruct (engine_ok w); [| reflexivity]);
    (destruct (filter _ (table w)) as [| row others]; [reflexivity |]);
    (destruct (UserMapper.toUserWithPassword row) as [u | e |] eqn:Hmap;
     try reflexivity);
    (destruct (isActive (base (full u))); simpl; [| reflexivity]);
    unfold Effect.flatMap, Effect.done, Effect.succeed, Schema.decodeAuthContext;
    rewrite RoleName_decode_encode, (toUserWithPassword_valid_id _ _ Hmap);
    reflexivity.
Qed.

(** X9. Looking up, listing, logging in and resolving a token never write:
    each of [findById], [findAll], [findByEmail], [getUser], [login] and
    [verifyJwt] leaves the table, the clock and the configuration as they
    were and sends at most one statement, whether it succeeds or fails. *)
Theorem reads_leave_the_table_alone (w : World) :
  (forall target r, readOnly w (snd (UserRepository.findById target r w)))
  /\ (forall r, readOnly w (snd (UserRepository.findAll r w)))
  /\ (forall mail, readOnly w (snd (UserRepository.findByEmail mail w)))
  /\ (forall target r uid, readOnly w (snd (UserService.getUser target r uid w)))
  /\ (forall mail pass, readOnly w (snd (AuthService.login mail pass w)))
  /\ (forall bearer, readOnly w (snd (AuthMiddleware.verifyJwt bearer w))).
Proof.
  assert (Hsame : readOnly w w).
  { unfold readOnly. repeat split; auto. }
  assert (Hone : forall s, readOnly w (UserRepository.record s w)).
  { intros s. unfold readOnly, UserRepository.record. simpl.
    repeat split; auto. right. exists s. reflexivity. }
  assert (HbyId : forall target r,
             readOnly w (snd (UserRepository.findById target r w))).
  { intros target r. rewrite findById_run. simpl.
    destruct (engine_ok w); [| apply Hone].
    destruct (filter _ (table w)) as [| row rest]; [apply Hone |].
    destruct (UserMapper.toUserByRole row r); apply Hone. }
  assert (HbyEmail : forall mail,
             readOnly w (snd (UserRepository.findByEmail mail w))).
  { intros mail. rewrite findByEmail_run. simpl.
    destruct (engine_ok w); [| apply Hone].
    destruct (filter _ (table w)) as [| row rest]; [apply Hone |].
    destruct (UserMapper.toUserWithPassword row); apply Hone. }
  split; [exact HbyId |].
  split; [| split; [exact HbyEmail | split; [| split]]].
  - intros r. rewrite findAll_run. simpl.
    destruct (engine_ok w); [| apply Hone].
    destruct (UserMapper.toUsersByRole _ r); apply Hone.
  - intros target r uid. unfold UserService.getUser.
    destruct (RoleName_eqb r user && negb (String.eqb uid target)); [exact Hsame |].
    unfold Effect.flatMap. specialize (HbyId target r).
    destruct (UserRepository.findById target r w) as [[[v |] | e |] w'];
      exact HbyId.
  - intros mail pass. rewrite login_run. specialize (HbyEmail mail).
    destruct (UserRepository.findByEmail mail w) as [[[u |] | e |] w'];
      try exact HbyEmail.
    destruct (isActive (base (full u))); [| exact HbyEmail].
    destruct (bcrypt_compare pass (password u)); [| exact HbyEmail].
    destruct (jwt_sign _ _ _ _); exact HbyEmail.
  - intros bearer. destruct bearer as [| c rest]; [exact Hsame |].
    rewrite verifyJwt_table_run.
    destruct (jwt_verify _ _ (clock w)) as [payload |]; [| exact Hsame].
    cbv zeta. destruct (engine_ok w); [| apply Hone].
    destruct (filter _ (table w)) as [| row others]; [apply Hone |].
    destruct (UserMapper.toUserWithPassword row) as [u | e |]; try apply Hone.
    destruct (isActive (base (full u))); apply Hone.
Qed.

(** X10. A context that [verifyJwt] returns describes a stored user: the
    token verified under the configured secret, and the table holds a row
    whose email is the payload's email, which is active and whose id and
    role are the context's. *)
Theorem verifyJwt_context_is_stored (bearer : string) (w w' : World)
  (ctx : AuthContext) :
  AuthMiddleware.verifyJwt bearer w = (Success ctx, w') ->
  exists payload row,
    jwt_verify bearer (secretOf w) (clock w) = Some payload
    /\ In row (table w)
    /\ row_email row = claim_email payload
    /\ row_isActive row = true
    /\ row_id row = userId ctx
    /\ row_role row = RoleName_encode (ctx_role ctx).
Proof.
  destruct bearer as [| c rest]; [discriminate |].
  rewrite verifyJwt_table_run.
  destruct (jwt_verify _ _ (clock w)) as [payload |]; [| discriminate].
  cbv zeta. destruct (engine_ok w); [| discriminate].
  destruct (filter _ (table w)) as [| row others] eqn:Hrows; [discriminate |].
  destruct (UserMapper.toUserWithPassword row) as [u | e |] eqn:Hmap;
    try discriminate.
  destruct (isActive (base (full u))) eqn:Hactive; [| discriminate].
  intros H; inversion H; subst ctx. simpl.
  apply filter_head_in in Hrows. destruct Hrows as [Hin Hmail].
  apply String.eqb_eq in Hmail.
  apply toUserWithPassword_origin in Hmap.
  destruct Hmap as [Hid [_ [Hact [Hrole _]]]].
  exists payload, row. repeat split; auto; congruence.
Qed.

(** X11. A token that [login] returns was issued for a stored user: the
    table holds a row with the given email which is active and whose stored
    hash the password matches, and the token is the signature of that row's
    id, email and role under the configured secret and expiry. *)
Theorem login_token_is_for_stored_user (mail pass : string) (w w' : World)
  (result : LoginResult) :
  AuthService.login mail pass w = (Success result, w') ->
  exists row,
    In row (table w)
    /\ row_email row = mail
    /\ row_isActive row = true
    /\ bcrypt_compare pass (row_password row) = true
    /\ jwt_sign {| claim_userId := row_id row; claim_email := mail;
                   claim_role := row_role row |}
         (secretOf w) (expiryOf w) (clock w)
       = Some (token result).
Proof.
  rewrite login_run, findByEmail_run. simpl.
  destruct (engine_ok w); [| discriminate].
  destruct (filter _ (table w)) as [| row others] eqn:Hrows; [discriminate |].
  destruct (UserMapper.toUserWithPassword row) as [u | e |] eqn:Hmap;
    try discriminate.
  destruct (isActive (base (full u))) eqn:Hactive; [| discriminate].
  destruct (bcrypt_compare pass (password u)) eqn:Hcmp; [| discriminate].
  destruct (jwt_sign _ _ _ _) as [signed |] eqn:Hsign; [| discriminate].
  intros H; inversion H; subst. simpl.
  apply filter_head_in in Hrows. destruct Hrows as [Hin Hmail].
  apply String.eqb_eq in Hmail.
  apply toUserWithPassword_origin in Hmap.
  destruct Hmap as [Hid [Hemail [Hact [Hrole Hpass]]]].
  exists row. repeat split; auto; try congruence.
  rewrite <- Hsign. unfold secretOf, expiryOf. simpl.
  rewrite <- Hid, <- Hrole, <- Hmail, <- Hemail. reflexivity.
Qed.

(** X12. A token from [login] resolves to the user who logged in: when the
    verifier accepts the issued token and gives back the email it was signed
    for, [verifyJwt] on the world [login] left returns the context with that
    user's stored id and role. *)
Theorem login_then_verifyJwt (mail pass : string) (w w1 : World)
  (result : LoginResult) (payload : JWTPayload) :
  AuthService.login mail pass w = (Success result, w1) ->
  token result <> "" ->
  jwt_verify (token result) (secretOf w1) (clock w1) = Some payload ->
  claim_email payload = mail ->
  exists u,
    UserRepository.findByEmail mail w = (Success (Some u), w1)
    /\ fst (AuthMiddleware.verifyJwt (token result) w1)
       = Success {| userId := id (base (full u));
                    ctx_role := role (base (full u)) |}.
Proof.
  intros Hlogin Hne Hverify Hmail.
  rewrite login_run in Hlogin.
  destruct (UserRepository.findByEmail mail w) as [[[u |] | e |] w0] eqn:Hfind;
    try discriminate.
  destruct (isActive (base (full u))) eqn:Hactive; [| discriminate].
  destruct (bcrypt_compare pass (password u)); [| discriminate].
  destruct (jwt_sign _ _ _ _) as [signed |]; [| discriminate].
  inversion Hlogin; subst. simpl in *. exists u. split; [reflexivity |].
  destruct signed as [| c rest]; [congruence |].
  rewrite verifyJwt_table_run, Hverify. cbv zeta.
  rewrite findByEmail_run in Hfind. simpl in Hfind.
  destruct (engine_ok w) eqn:Hok; [| discriminate].
  destruct (filter _ (table w)) as [| row others] eqn:Hrows; [discriminate |].
  destruct (UserMapper.toUserWithPassword row) as [u' | e |] eqn:Hmap;
    try discriminate.
  inversion Hfind; subst. simpl. rewrite Hok, Hrows, Hmap, Hactive. reflexivity.
Qed.

End ResolverFacts.

Lemma verifyJwt_context_is_stored_witness :
  exists payload row,
    Sample.verify "s3cret.admin.bob@b.com" "s3cret" 5000 = Some payload
    /\ In row (table Sample.office)
    /\ row_email row = claim_email payload
    /\ row_isActive row = true
    /\ row_id row = Sample.bobId
    /\ row_role row = "user".
Proof.
  apply (verifyJwt_context_is_stored (C := Sample.libraries)
           "s3cret.admin.bob@b.com" Sample.office
           (UserRepository.record (SelectByEmail "bob@b.com") Sample.office)
           {| userId := Sample.bobId; ctx_role := user |}).
  vm_compute. reflexivity.
Defined.

Lemma login_token_is_for_stored_user_witness :
  exists row,
    In row (table Sample.office)
    /\ row_email row = "bob@b.com"
    /\ row_isActive row = true
    /\ Sample.compare "bob-secret" (row_password row) = true
    /\ Sample.sign {| claim_userId := row_id row; claim_email := "bob@b.com";
                      claim_role := row_role row |} "s3cret" "24h" 5000
       = Some "s3cret.user.bob@b.com".
Proof.
  apply (login_token_is_for_stored_user (C := Sample.libraries)
           "bob@b.com" "bob-secret" Sample.office
           (UserRepository.record (SelectByEmail "bob@b.com") Sample.office)
           {| token := "s3cret.user.bob@b.com" |}).
  vm_compute. reflexivity.
Defined.

Lemma login_then_verifyJwt_witness :
  exists u,
    UserRepository.findByEmail "bob@b.com" Sample.office
    = (Success (Some u),
       UserRepository.record (SelectByEmail "bob@b.com") Sample.office)
    /\ fst (AuthMiddleware.verifyJwt (C := Sample.libraries)
              "s3cret.user.bob@b.com"
              (UserRepository.record (SelectByEmail "bob@b.com") Sample.office))
       = Success {| userId := id (base (full u));
                    ctx_role := role (base (full u)) |}.
Proof.
  apply (login_then_verifyJwt (C := Sample.libraries) "bob@b.com" "bob-secret"
           Sample.office
           (UserRepository.record (SelectByEmail "bob@b.com") Sample.office)
           {| token := "s3cret.user.bob@b.com" |}
           {| claim_userId := ""; claim_email := "bob@b.com"; claim_role := "user" |}).
  - vm_compute. reflexivity.
  - discriminate.
  - vm_compute. reflexivity.
  - reflexivity.
Defined.

(* ------------------------------------------------------------------ *)
(** ** Updates *)
(* ------------------------------------------------------------------ *)

Lemma bytes_eqb_eq (x y : list N) : Uuid.bytes_eqb x y = true <-> x = y.
Proof.
  revert y; induction x as [| a x IH]; intros [| b y]; simpl; split;
    try discriminate; try reflexivity.
  - intros H. apply andb_true_iff in H. destruct H as [Hab Hxy].
    apply N.eqb_eq in Hab. apply IH in Hxy. congruence.
  - intros H. inversion H; subst. rewrite N.eqb_refl. apply IH. reflexivity.
Qed.

(** Two texts are the same uuid when the engine reads the same bytes from
    both, or reads neither and they are one text. *)
Lemma same_iff (a b : string) :
  Uuid.same a b = true <->
  Uuid.parse a = Uuid.parse b /\ (Uuid.parse a = None -> a = b).
Proof.
  unfold Uuid.same.
  destruct (Uuid.parse a) as [x |], (Uuid.parse b) as [y |]; split;
    try (intros H; discriminate);
    try (intros [H _]; discriminate).
  - intros H. apply bytes_eqb_eq in H. subst. split; [reflexivity | discriminate].
  - intros [H _]. inversion H. apply bytes_eqb_eq. reflexivity.
  - intros H. apply String.eqb_eq in H. auto.
  - intros [_ H]. apply String.eqb_eq. auto.
Qed.

Lemma same_refl (a : string) : Uuid.same a a = true.
Proof. apply same_iff. auto. Qed.

Lemma same_trans (a b c : string) :
  Uuid.same a b = true -> Uuid.same b c = true -> Uuid.same a c = true.
Proof.
  rewrite !same_iff. intros [H1 E1] [H2 E2]. split; [congruence |].
  intros Ha. rewrite (E1 Ha). apply E2. congruence.
Qed.

Lemma same_sym (a b : string) : Uuid.same a b = Uuid.same b a.
Proof.
  destruct (Uuid.same a b) eqn:Hab, (Uuid.same b a) eqn:Hba; try reflexivity.
  - apply same_iff in Hab. destruct Hab as [H E].
    assert (Uuid.same b a = true).
    { apply same_iff. split; [congruence |]. intros Hb. symmetry. apply E. congruence. }
    congruence.
  - apply same_iff in Hba. destruct Hba as [H E].
    assert (Uuid.same a b = true).
    { apply same_iff. split; [congruence |]. intros Hb. symmetry. apply E. congruence. }
    congruence.
Qed.

Lemma Forall2_map_self {A : Type} (R : A -> A -> Prop) (f : A -> A) (l : list A) :
  (forall x, R x (f x)) -> Forall2 R l (map f l).
Proof. intros H. induction l; simpl; constructor; auto. Qed.

Lemma Forall2_same {A : Type} (R : A -> A -> Prop) (l : list A) :
  (forall x, R x x) -> Forall2 R l l.
Proof. intros H. induction l; constructor; auto. Qed.

Lemma filter_updated (target : string) (u : RowUpdates) (rows : list UserRow) :
  filter (hasId target)
    (map (fun row => if hasId target row
                     then UserRepository.applyUpdates u row else row) rows)
  = map (UserRepository.applyUpdates u) (filter (hasId target) rows).
Proof.
  induction rows as [| row rows IH]; simpl; [reflexivity |].
  destruct (hasId target row) eqn:Hrow.
  - change (hasId target (UserRepository.applyUpdates u row)) with (hasId target row).
    rewrite Hrow. simpl. rewrite IH. reflexivity.
  - rewrite Hrow. exact IH.
Qed.

Section UpdateFacts.
Context {C : Collaborators}.

Lemma execute_run (target : string) (u : RowUpdates) (message : string) (w : World) :
  UserRepository.execute target u message w
  = if engine_ok w
    then (Success (update_result (filter (hasId target) (table w))), written target u w)
    else (Failure (DatabaseError message),
          UserRepository.record (UpdateById target u) w).
Proof. reflexivity. Qed.

Lemma update_run (target : string) (data : UpdateUserProfile) (w : World) :
  UserRepository.update target data w
  = let u := UserRepository.profileUpdates data in
    if UserRepository.hasNoKeys u then (Success false, w)
    else
      let u' := UserRepository.withUpdatedAt (clock w) u in
      if engine_ok w
      then (Success (0 <? List.length (update_result (filter (hasId target) (table w))))%nat,
            written target u' w)
      else (Failure (DatabaseError "Failed to update user in database"),
            UserRepository.record (UpdateById target u') w).
Proof.
  unfold UserRepository.update. cbv zeta.
  destruct (UserRepository.hasNoKeys _); [reflexivity |].
  unfold Effect.flatMap, Effect.now, Effect.succeed. rewrite execute_run.
  destruct (engine_ok w); reflexivity.
Qed.

Lemma updateSensitive_run (target : string) (data : UpdateSensitiveData) (w : World) :
  UserRepository.updateSensitive target data w
  = let u := UserRepository.sensitiveUpdates data in
    if UserRepository.hasNoKeys u then (Success false, w)
    else
      let u' := UserRepository.withUpdatedAt (clock w) u in
      if engine_ok w
      then (Success (0 <? List.length (update_result (filter (hasId target) (table w))))%nat,
            written target u' w)
      else (Failure (DatabaseError "Failed to update sensitive data in database"),
            UserRepository.record (UpdateById target u') w).
Proof.
  unfold UserRepository.updateSensitive. cbv zeta.
  destruct (UserRepository.hasNoKeys _); [reflexivity |].
  unfold Effect.flatMap, Effect.now, Effect.succeed. rewrite execute_run.
  destruct (engine_ok w); reflexivity.
Qed.

Lemma guard_open (target uid : string) (r : RoleName) :
  r = admin \/ uid = target ->
  RoleName_eqb r user && negb (String.eqb uid target) = false.
Proof.
  intros [-> | ->]; [reflexivity |].
  rewrite String.eqb_refl. apply andb_false_r.
Qed.

(** X13. [updateProfile] lets a caller of role user change its own profile
    only: for another target it fails with [ForbiddenError] "Cannot update
    other users" and leaves the world as it was.  An admin, and a user on
    its own id, go on to the repository's [update]. *)
Theorem updateProfile_ownership (target : string) (data : UpdateUserProfile)
  (r : RoleName) (uid : string) (w : World) :
  (r = user -> uid <> target ->
   UserService.updateProfile target data r uid w
   = (Failure (ForbiddenError "Cannot update other users"), w))
  /\ (r = admin \/ uid = target ->
      UserService.updateProfile target data r uid w
      = UserRepository.update target data w).
Proof.
  unfold UserService.updateProfile. split.
  - intros -> Hne. simpl.
    destruct (String.eqb_spec uid target); [contradiction | reflexivity].
  - intros Hallowed. rewrite (guard_open _ _ _ Hallowed). reflexivity.
Qed.

(** X14. No update touches what it is not meant to: the rows of the table
    after [updateProfile], and after [updateSensitiveData], are, taken in a
    suitable order, the rows before, one for one, each with its id, role,
    active flag, password hash and creation date unchanged, and a row whose
    id is not the target's uuid unchanged altogether.  [updateProfile] also
    leaves salary and ssn as they were, and [updateSensitiveData] leaves name
    and email as they were.  So neither can add or drop a row, promote a
    user, reactivate an account or replace a password. *)
Theorem updates_keep_fixed_columns (target : string) (r : RoleName) (uid : string)
  (w : World) :
  (forall data,
      exists rows,
        Permutation rows
          (table (snd (UserService.updateProfile target data r uid w)))
        /\ Forall2 (fun old new =>
                      fixedColumns new = fixedColumns old
                      /\ row_salary new = row_salary old
                      /\ row_ssn new = row_ssn old
                      /\ (hasId target old = false -> new = old))
             (table w) rows)
  /\ (forall data,
         exists rows,
           Permutation rows
             (table (snd (UserService.updateSensitiveData target data r uid w)))
           /\ Forall2 (fun old new =>
                         fixedColumns new = fixedColumns old
                         /\ row_name new = row_name old
                         /\ row_email new = row_email old
                         /\ (hasId target old = false -> new = old))
                (table w) rows).
Proof.
  split; intros data; eexists; (split; [apply Permutation_refl |]).
  - unfold UserService.updateProfile.
    destruct (RoleName_eqb r user && negb (String.eqb uid target)).
    + simpl. apply Forall2_same. intros row. auto.
    + rewrite update_run. cbv zeta.
      destruct (UserRepository.hasNoKeys _);
        [simpl; apply Forall2_same; intros row; auto |].
      destruct (engine_ok w); simpl; [| apply Forall2_same; intros row; auto].
      apply Forall2_map_self. intros row.
      destruct (hasId target row) eqn:Hhit.
      * repeat split; try reflexivity. intros Hdiff. discriminate.
      * auto.
  - unfold UserService.updateSensitiveData.
    destruct (negb (RoleName_eqb r admin)).
    + simpl. apply Forall2_same. intros row. auto.
    + rewrite updateSensitive_run. cbv zeta.
      destruct (UserRepository.hasNoKeys _);
        [simpl; apply Forall2_same; intros row; auto |].
      destruct (engine_ok w); simpl; [| apply Forall2_same; intros row; auto].
      apply Forall2_map_self. intros row.
      destruct (hasId target row) eqn:Hhit.
      * repeat split; try reflexivity. intros Hdiff. discriminate.
      * auto.
Qed.

(** X15. [update] and [updateSensitive] answer [true] exactly when the patch
    had something to apply, the storage engine carried the statement out and
    the array the driver resolved to is not empty; whether a row was changed
    does not enter into it. *)
Theorem update_answer (target : string) (w : World) :
  (forall data,
      fst (UserRepository.update target data w) = Success true <->
      UserRepository.hasNoKeys (UserRepository.profileUpdates data) = false
      /\ engine_ok w = true
      /\ update_result (filter (hasId target) (table w)) <> [])
  /\ (forall data,
         fst (UserRepository.updateSensitive target data w) = Success true <->
         UserRepository.hasNoKeys (UserRepository.sensitiveUpdates data) = false
         /\ engine_ok w = true
         /\ update_result (filter (hasId target) (table w)) <> []).
Proof.
  assert (Hlen : forall l : list UserRow, (0 <? List.length l)%nat = true <-> l <> []).
  { intros l. destruct l; simpl; split; intros H;
      first [discriminate | reflexivity | exfalso; apply H; reflexivity]. }
  split; intros data; [rewrite update_run | rewrite updateSensitive_run]; cbv zeta;
    (destruct (UserRepository.hasNoKeys _); simpl;
     [split; [discriminate | intros [H _]; discriminate] |]);
    (destruct (engine_ok w); simpl;
     [| split; [discriminate | intros [_ [H _]]; discriminate]]);
    split.
  - intros H. inversion H as [Hb]. apply Hlen in Hb. auto.
  - intros [_ [_ H]]. apply Hlen in H. rewrite H. reflexivity.
  - intros H. inversion H as [Hb]. apply Hlen in Hb. auto.
  - intros [_ [_ H]]. apply Hlen in H. rewrite H. reflexivity.
Qed.

End UpdateFacts.

Lemma toBaseUser_valid (row : UserRow) (b : BaseUser) :
  UserMapper.toBaseUser row = Success b ->
  Schema.valid_name (row_name row) = true
  /\ Schema.valid_email (row_email row) = true
  /\ name b = row_name row /\ email b = row_email row.
Proof.
  unfold UserMapper.toBaseUser, Schema.decodeBaseUser. simpl.
  destruct (RoleName_decode (row_role row)); simpl; [| discriminate].
  destruct (Schema.valid_id (row_id row)); simpl; [| discriminate].
  destruct (Schema.valid_email (row_email row)); simpl; [| discriminate].
  destruct (Schema.valid_name (row_name row)); simpl; [| discriminate].
  intros H; inversion H; subst; simpl. auto.
Qed.

(** A row that mapped still maps after an update whose name and email pass
    their rules, to the same user with the new values. *)
Lemma toBaseUser_after (u : RowUpdates) (row : UserRow) (b : BaseUser) :
  UserMapper.toBaseUser row = Success b ->
  Schema.valid_name (row_name (UserRepository.applyUpdates u row)) = true ->
  Schema.valid_email (row_email (UserRepository.applyUpdates u row)) = true ->
  UserMapper.toBaseUser (UserRepository.applyUpdates u row)
  = Success (renamed (row_name (UserRepository.applyUpdates u row))
               (row_email (UserRepository.applyUpdates u row))
               (row_updatedAt (UserRepository.applyUpdates u row)) b).
Proof.
  unfold UserMapper.toBaseUser, Schema.decodeBaseUser.
  cbn [UserMapper.common raw_id raw_email raw_name raw_role raw_isActive
       raw_createdAt raw_updatedAt].
  change (row_role (UserRepository.applyUpdates u row)) with (row_role row).
  change (row_id (UserRepository.applyUpdates u row)) with (row_id row).
  change (row_isActive (UserRepository.applyUpdates u row)) with (row_isActive row).
  change (row_createdAt (UserRepository.applyUpdates u row))
    with (row_createdAt row).
  destruct (RoleName_decode (row_role row)); simpl; [| discriminate].
  destruct (Schema.valid_id (row_id row)); simpl; [| discriminate].
  destruct (Schema.valid_email (row_email row) && Schema.valid_name (row_name row));
    simpl; [| discriminate].
  intros H Hn Hm. inversion H; subst b. rewrite Hn, Hm. reflexivity.
Qed.

Section WriteThenRead.
Context {C : Collaborators}.

(** [findById] on the world an update left. *)
Lemma findById_written (target : string) (u : RowUpdates) (r : RoleName)
  (w : World) (row : UserRow) (rest : list UserRow) :
  engine_ok w = true ->
  filter (hasId target) (table w) = row :: rest ->
  fst (UserRepository.findById target r (written target u w))
  = match UserMapper.toUserByRole (UserRepository.applyUpdates u row) r with
    | Success v => Success (Some v)
    | Failure e => Failure e
    | Die => Die
    end.
Proof.
  intros Hok Hrows. rewrite findById_run.
  change (engine_ok (written target u w)) with (engine_ok w). rewrite Hok.
  change (table (written target u w))
    with (map (fun row0 => if hasId target row0
                           then UserRepository.applyUpdates u row0 else row0)
            (table w)).
  rewrite filter_updated, Hrows. simpl.
  destruct (UserMapper.toUserByRole _ r); reflexivity.
Qed.

(** X16. What [updateProfile] wrote is what [getUser] reads back: after an
    allowed [updateProfile] that gives a name and an email which pass their
    rules, on a stored user that mapped, the user's own [getUser] returns the
    same user with the new name, the new email and the time of the update as
    [updatedAt]. *)
Theorem updateProfile_then_getUser (target n m : string) (r : RoleName)
  (uid : string) (w : World) (row : UserRow) (rest : list UserRow) (b : BaseUser) :
  r = admin \/ uid = target ->
  engine_ok w = true ->
  filter (hasId target) (table w) = row :: rest ->
  UserMapper.toBaseUser row = Success b ->
  Schema.valid_name n = true ->
  Schema.valid_email m = true ->
  fst (UserService.getUser target user target
         (snd (UserService.updateProfile target
                 {| patch_name := Some n; patch_email := Some m |} r uid w)))
  = Success (Base (renamed n m (clock w) b)).
Proof.
  intros Hallowed Hok Hrows Hb Hn Hm.
  assert (Tn : Js.truthy n = true) by (destruct n; [discriminate | reflexivity]).
  assert (Tm : Js.truthy m = true)
    by (destruct m; [vm_compute in Hm; discriminate | reflexivity]).
  unfold UserService.updateProfile. rewrite (guard_open _ _ _ Hallowed).
  rewrite update_run. unfold UserRepository.profileUpdates.
  cbv zeta. cbn [patch_name patch_email]. rewrite Tn, Tm.
  cbn [UserRepository.hasNoKeys set_name]. rewrite Hok. cbn [snd].
  unfold UserService.getUser.
  rewrite (guard_open target target user (or_intror eq_refl)).
  unfold Effect.flatMap.
  set (u := UserRepository.withUpdatedAt (clock w)
              {| set_name := Some n; set_email := Some m; set_salary := None;
                 set_ssn := None; set_updatedAt := None |}).
  pose proof (findById_written target u user w row rest Hok Hrows) as Hread.
  cbn [UserMapper.toUserByRole] in Hread.
  rewrite (toBaseUser_after u row b Hb Hn Hm) in Hread.
  change (row_name (UserRepository.applyUpdates u row)) with n in Hread.
  change (row_email (UserRepository.applyUpdates u row)) with m in Hread.
  change (row_updatedAt (UserRepository.applyUpdates u row)) with (clock w) in Hread.
  destruct (UserRepository.findById target user _) as [[[v |] | e |] w2];
    simpl in Hread; inversion Hread; reflexivity.
Qed.

(** X17. [updateSensitiveData] stores an ssn without consulting the ssn
    rule, and the admin's view of that user is lost for it: after an admin
    stores an ssn that breaks the rule, [getUser] on that user fails with
    the mapper's [DatabaseError] for a caller of role admin, while the user's
    own BaseView still comes back, unchanged but for [updatedAt]. *)
Theorem unchecked_ssn_breaks_admin_reads (target s uid : string) (w : World)
  (row : UserRow) (rest : list UserRow) (b : BaseUser) :
  engine_ok w = true ->
  filter (hasId target) (table w) = row :: rest ->
  UserMapper.toBaseUser row = Success b ->
  Schema.valid_ssn (Some s) = false ->
  let w1 :=
    snd (UserService.updateSensitiveData target
           {| patch_salary := None; patch_ssn := Some (Some s) |} admin uid w) in
  fst (UserService.getUser target admin uid w1)
  = Failure (DatabaseError "Failed to map database row to FullUser domain model")
  /\ fst (UserService.getUser target user target w1)
     = Success (Base (renamed (name b) (email b) (clock w) b)).
Proof.
  intros Hok Hrows Hb Hssn. cbv zeta.
  unfold UserService.updateSensitiveData. cbn [RoleName_eqb negb].
  rewrite updateSensitive_run. unfold UserRepository.sensitiveUpdates.
  cbv zeta. cbn [UserRepository.hasNoKeys set_name set_email set_salary set_ssn
                 patch_salary patch_ssn].
  rewrite Hok. cbn [snd].
  set (u := UserRepository.withUpdatedAt (clock w) _).
  destruct (toBaseUser_valid row b Hb) as [Vn [Vm [En Em]]].
  split.
  - unfold UserService.getUser. cbn [RoleName_eqb andb]. unfold Effect.flatMap.
    pose proof (findById_written target u admin w row rest Hok Hrows) as Hread.
    assert (Hfull : UserMapper.toUserByRole (UserRepository.applyUpdates u row) admin
                    = Failure (DatabaseError
                                 "Failed to map database row to FullUser domain model")).
    { cbn [UserMapper.toUserByRole]. unfold UserMapper.toFullUser, Schema.decodeFullUser.
      cbn [UserMapper.common raw_salary raw_ssn].
      change (row_ssn (UserRepository.applyUpdates u row)) with (Some s).
      rewrite Hssn, andb_false_r.
      destruct (Schema.decodeBaseUser _); reflexivity. }
    rewrite Hfull in Hread.
    destruct (UserRepository.findById target admin _) as [[[v |] | e |] w2];
      simpl in Hread; inversion Hread; reflexivity.
  - unfold UserService.getUser.
    rewrite (guard_open target target user (or_intror eq_refl)).
    unfold Effect.flatMap.
    pose proof (findById_written target u user w row rest Hok Hrows) as Hread.
    cbn [UserMapper.toUserByRole] in Hread.
    rewrite (toBaseUser_after u row b Hb Vn Vm) in Hread.
    change (row_name (UserRepository.applyUpdates u row)) with (row_name row) in Hread.
    change (row_email (UserRepository.applyUpdates u row)) with (row_email row)
      in Hread.
    change (row_updatedAt (UserRepository.applyUpdates u row)) with (clock w)
      in Hread.
    rewrite <- En, <- Em in Hread.
    destruct (UserRepository.findById target user _) as [[[v |] | e |] w2];
      simpl in Hread; inversion Hread; reflexivity.
Qed.

(** X18. In a sensitive patch an absent salary and a [null] salary differ:
    with both fields absent an admin's [updateSensitiveData] returns [false]
    and sends nothing; with [salary: null] the statement is sent and, when
    the storage engine carries it out, every row of the target has no salary
    afterwards while every ssn is as it was. *)
Theorem sensitive_patch_null_and_absent (target uid : string) (w : World) :
  UserService.updateSensitiveData target
    {| patch_salary := None; patch_ssn := None |} admin uid w
  = (Success false, w)
  /\ (engine_ok w = true ->
      let w1 :=
        snd (UserService.updateSensitiveData target
               {| patch_salary := Some None; patch_ssn := None |} admin uid w) in
      Forall (fun row => row_id row = target -> row_salary row = None) (table w1)
      /\ map row_ssn (table w1) = map row_ssn (table w)
      /\ statements w1
         = UpdateById target
             {| set_name := None; set_email := None; set_salary := Some None;
                set_ssn := None; set_updatedAt := Some (clock w) |}
           :: statements w).
Proof.
  split; [reflexivity |].
  intros Hok. cbv zeta. unfold UserService.updateSensitiveData.
  cbn [RoleName_eqb negb]. rewrite updateSensitive_run.
  unfold UserRepository.sensitiveUpdates. cbv zeta.
  cbn [UserRepository.hasNoKeys set_name set_email set_salary patch_salary patch_ssn].
  rewrite Hok. cbn [snd]. unfold written. cbn [table statements].
  split; [| split; [| reflexivity]].
  - apply Forall_forall. intros row Hin. apply in_map_iff in Hin.
    destruct Hin as [old [Hrow _]].
    destruct (hasId target old) eqn:Hhit.
    + subst row. reflexivity.
    + subst row. intros Hid. unfold hasId in Hhit.
      rewrite Hid, same_refl in Hhit. discriminate.
  - rewrite map_map. apply map_ext. intros row.
    destruct (hasId target row); reflexivity.
Qed.

End WriteThenRead.

Lemma updateProfile_ownership_witness :
  UserService.updateProfile (C := Sample.libraries) Sample.annId
    {| patch_name := Some "Mallory"; patch_email := None |} user Sample.bobId
    Sample.office
  = (Failure (ForbiddenError "Cannot update other users"), Sample.office)
  /\ UserService.updateProfile (C := Sample.libraries) Sample.bobId
       {| patch_name := Some "Robert"; patch_email := None |} user Sample.bobId
       Sample.office
     = UserRepository.update (C := Sample.libraries) Sample.bobId
         {| patch_name := Some "Robert"; patch_email := None |} Sample.office.
Proof.
  split.
  - apply (proj1 (updateProfile_ownership (C := Sample.libraries) Sample.annId
                    {| patch_name := Some "Mallory"; patch_email := None |}
                    user Sample.bobId Sample.office)).
    + reflexivity.
    + discriminate.
  - apply (proj2 (updateProfile_ownership (C := Sample.libraries) Sample.bobId
                    {| patch_name := Some "Robert"; patch_email := None |}
                    user Sample.bobId Sample.office)).
    right. reflexivity.
Defined.

(** With a driver that resolves an [UPDATE] without [RETURNING] to an empty
    array, the answer is [false] although the row was changed. *)
Lemma update_answer_witness :
  fst (UserRepository.update (C := Sample.libraries) Sample.bobId
         {| patch_name := Some "Robert"; patch_email := None |} Sample.office)
  <> Success true
  /\ map row_name
       (table (snd (UserRepository.update (C := Sample.libraries) Sample.bobId
                      {| patch_name := Some "Robert"; patch_email := None |}
                      Sample.office)))
     = ["Ann"; "Robert"; "Cal"].
Proof.
  split.
  - intros H.
    apply (proj1 (update_answer (C := Sample.libraries) Sample.bobId Sample.office))
      in H.
    destruct H as [_ [_ H]]. apply H. reflexivity.
  - vm_compute. reflexivity.
Defined.

Lemma updateProfile_then_getUser_witness :
  fst (UserService.getUser Sample.bobId user Sample.bobId
         (snd (UserService.updateProfile (C := Sample.libraries) Sample.bobId
                 {| patch_name := Some "Robert"; patch_email := Some "rob@b.com" |}
                 user Sample.bobId Sample.office)))
  = Success (Base {| id := Sample.bobId; email := "rob@b.com"; name := "Robert";
                     role := user; isActive := true;
                     createdAt := 2000; updatedAt := 5000 |}).
Proof.
  apply (updateProfile_then_getUser (C := Sample.libraries) Sample.bobId
           "Robert" "rob@b.com" user Sample.bobId Sample.office Sample.bob []
           {| id := Sample.bobId; email := "bob@b.com"; name := "Bob";
              role := user; isActive := true;
              createdAt := 2000; updatedAt := 2000 |}).
  - right. reflexivity.
  - reflexivity.
  - vm_compute. reflexivity.
  - vm_compute. reflexivity.
  - reflexivity.
  - vm_compute. reflexivity.
Defined.

Lemma unchecked_ssn_breaks_admin_reads_witness :
  fst (UserService.getUser Sample.bobId admin Sample.annId
         (snd (UserService.updateSensitiveData (C := Sample.libraries) Sample.bobId
                 {| patch_salary := None; patch_ssn := Some (Some "123456789") |}
                 admin Sample.annId Sample.office)))
  = Failure (DatabaseError "Failed to map database row to FullUser domain model").
Proof.
  apply (unchecked_ssn_breaks_admin_reads (C := Sample.libraries) Sample.bobId
           "123456789" Sample.annId Sample.office Sample.bob []
           {| id := Sample.bobId; email := "bob@b.com"; name := "Bob";
              role := user; isActive := true;
              createdAt := 2000; updatedAt := 2000 |}).
  - reflexivity.
  - vm_compute. reflexivity.
  - vm_compute. reflexivity.
  - vm_compute. reflexivity.
Defined.

Lemma sensitive_patch_null_and_absent_witness :
  map row_salary
    (table (snd (UserService.updateSensitiveData (C := Sample.libraries)
                   Sample.calId {| patch_salary := Some None; patch_ssn := None |}
                   admin Sample.annId Sample.office)))
  = [Some "50000.00"; None; None]
  /\ map row_ssn
       (table (snd (UserService.updateSensitiveData (C := Sample.libraries)
                      Sample.calId {| patch_salary := Some None; patch_ssn := None |}
                      admin Sample.annId Sample.office)))
     = map row_ssn (table Sample.office).
Proof.
  split; [vm_compute; reflexivity |].
  apply (proj2 (sensitive_patch_null_and_absent (C := Sample.libraries)
                  Sample.calId Sample.annId Sample.office)).
  reflexivity.
Defined.

(* ------------------------------------------------------------------ *)
(** ** Failures, the middleware, the handlers and [requireRole] *)
(* ------------------------------------------------------------------ *)

Lemma toUserWithPassword_failure (row : UserRow) :
  match UserMapper.toUserWithPassword row with
  | Success _ => True
  | Failure e => exists m, e = DatabaseError m
  | Die => False
  end.
Proof.
  unfold UserMapper.toUserWithPassword.
  destruct (Schema.decodeUserWithPassword _); simpl; eauto.
Qed.

Lemma toUsersByRole_failure (rows : list UserRow) (r : RoleName) :
  match UserMapper.toUsersByRole rows r with
  | Success _ => True
  | Failure e => exists m, e = DatabaseError m
  | Die => False
  end.
Proof.
  unfold UserMapper.toUsersByRole.
  assert (Hall : match ExitM.all (map (fun row => UserMapper.toUserByRole row r) rows)
                 with
                 | Success _ => True
                 | Failure e => exists m, e = DatabaseError m
                 | Die => False
                 end).
  { induction rows as [| row rows IH]; simpl; [exact I |].
    pose proof (toUserByRole_failure row r) as Hrow.
    destruct (UserMapper.toUserByRole row r); simpl; auto.
    destruct (ExitM.all _); simpl; auto. }
  destruct (ExitM.all _); simpl; auto.
Qed.

Lemma strip_prefix_append (p t : string) : Js.strip_prefix p (p ++ t) = Some t.
Proof.
  induction p as [| c p IH]; simpl; [destruct t; reflexivity |].
  rewrite Ascii.eqb_refl. exact IH.
Qed.

(** A header that starts with the scheme loses it. *)
Lemma replace_prefix (p t : string) : Js.replace p "" (p ++ t) = t.
Proof.
  destruct p as [| c p]; [destruct t; reflexivity |].
  change (Js.replace (String c p) "" (String c p ++ t))
    with (match Js.strip_prefix (String c p) (String c p ++ t) with
          | Some rest => ("" ++ rest)%string
          | None => String c (Js.replace (String c p) "" (p ++ t))
          end).
  rewrite strip_prefix_append. reflexivity.
Qed.

Section EdgeFacts.
Context {C : Collaborators}.

(** X19. Every way [getUser], [login] and [verifyJwt] can fail: [getUser]
    with its [ForbiddenError], its [NotFoundError] or a [DatabaseError];
    [login] with one of three [AuthenticationError] messages or a
    [DatabaseError]; [verifyJwt] with one of four [AuthenticationError]
    messages or a [DatabaseError], and never with "Invalid auth context".
    None of them ends with a defect. *)
Theorem failures_are_catalogued (w : World) :
  (forall target r uid,
      match fst (UserService.getUser target r uid w) with
      | Success _ => True
      | Failure e =>
          e = ForbiddenError "Users can only view their own profile"
          \/ e = NotFoundError "User" target
          \/ exists m, e = DatabaseError m
      | Die => False
      end)
  /\ (forall mail pass,
         match fst (AuthService.login mail pass w) with
         | Success _ => True
         | Failure e =>
             e = AuthenticationError "Invalid email or password"
             \/ e = AuthenticationError "User account is inactive"
             \/ e = AuthenticationError "Failed to generate token"
             \/ exists m, e = DatabaseError m
         | Die => False
         end)
  /\ (forall bearer,
         match fst (AuthMiddleware.verifyJwt bearer w) with
         | Success _ => True
         | Failure e =>
             e = AuthenticationError "Missing authorization token"
             \/ e = AuthenticationError "Invalid or expired token"
             \/ e = AuthenticationError "User not found"
             \/ e = AuthenticationError "User account is inactive"
             \/ exists m, e = DatabaseError m
         | Die => False
         end).
Proof.
  split; [| split].
  - intros target r uid. unfold UserService.getUser.
    destruct (RoleName_eqb r user && negb (String.eqb uid target)); simpl; [auto |].
    unfold Effect.flatMap. rewrite findById_run. simpl.
    destruct (engine_ok w); simpl; [| eauto].
    destruct (filter _ (table w)) as [| row rest]; simpl; [auto |].
    pose proof (toUserByRole_failure row r) as Hrow.
    destruct (UserMapper.toUserByRole row r); simpl; auto.
  - intros mail pass. rewrite login_run, findByEmail_run. simpl.
    destruct (engine_ok w); simpl; [| eauto 6].
    destruct (filter _ (table w)) as [| row rest]; simpl; [auto |].
    pose proof (toUserWithPassword_failure row) as Hrow.
    destruct (UserMapper.toUserWithPassword row) as [u | e |]; simpl; auto.
    destruct (isActive (base (full u))); simpl; [| auto].
    destruct (bcrypt_compare pass (password u)); simpl; [| auto].
    destruct (jwt_sign _ _ _ _); simpl; auto.
  - intros bearer. destruct bearer as [| c rest]; [simpl; auto |].
    rewrite verifyJwt_table_run.
    destruct (jwt_verify _ _ (clock w)) as [payload |]; simpl; [| auto].
    destruct (engine_ok w); simpl; [| eauto 7].
    destruct (filter _ (table w)) as [| row others]; simpl; [auto |].
    pose proof (toUserWithPassword_failure row) as Hrow.
    destruct (UserMapper.toUserWithPassword row) as [u | e |]; simpl; auto 6.
    destruct (isActive (base (full u))); simpl; auto 6.
Qed.

(** X20. [authMiddleware] hands the application a context only after
    [verifyJwt] resolved one: a request without an Authorization header, or
    with nothing after the scheme, fails with "Missing authorization token"
    before the application or the storage engine is reached; for a header
    [Bearer t] the middleware is [verifyJwt t] followed by the application;
    and whenever the middleware succeeds, the application ran on the context
    [verifyJwt] returned for the header with its first "Bearer " taken out. *)
Theorem authMiddleware_resolves_before_app {A : Type}
  (app : AuthContext -> Effect.t A) (t : string) (w : World) :
  AuthMiddleware.authMiddleware app {| authorization := None |} w
  = (Failure (AuthenticationError "Missing authorization token"), w)
  /\ AuthMiddleware.authMiddleware app {| authorization := Some "Bearer " |} w
     = (Failure (AuthenticationError "Missing authorization token"), w)
  /\ AuthMiddleware.authMiddleware app
       {| authorization := Some ("Bearer " ++ t) |} w
     = Effect.flatMap (AuthMiddleware.verifyJwt t) app w
  /\ (forall header result w2,
         AuthMiddleware.authMiddleware app {| authorization := Some header |} w
         = (Success result, w2) ->
         exists ctx w1,
           AuthMiddleware.verifyJwt (Js.replace "Bearer " "" header) w
           = (Success ctx, w1)
           /\ app ctx w1 = (Success result, w2)).
Proof.
  split; [reflexivity |]. split; [reflexivity |]. split.
  - unfold AuthMiddleware.authMiddleware. cbn [authorization].
    change (Js.truthy ("Bearer " ++ t)) with true. cbv iota.
    rewrite replace_prefix. reflexivity.
  - intros header result w2. unfold AuthMiddleware.authMiddleware.
    cbn [authorization].
    destruct header as [| c rest]; [discriminate |].
    cbn [Js.truthy]. unfold Effect.flatMap.
    destruct (AuthMiddleware.verifyJwt _ w) as [[ctx | e |] w1]; try discriminate.
    intros H. exists ctx, w1. auto.
Qed.

(** X21. Behind [withAuth] the access rules of the service never refuse:
    for a request with any non-empty token, the handlers are the repository's
    own operations under role admin.  [getAllUsers] is [findAll] for admin,
    [updateUser] is [update], [updateSensitiveData] is [updateSensitive],
    [getUser] is the admin's [getUser], [getCurrentUser] is [getUser] on the
    literal id, and none of them fails with [ForbiddenError]. *)
Theorem handlers_behind_withAuth (request : Request) (pathId : string) (w : World) :
  AuthMiddleware.bearerOf request <> "" ->
  UserHandlers.getAllUsers request w = UserRepository.findAll admin w
  /\ (forall payload,
         UserHandlers.updateUser pathId payload request w
         = UserRepository.update pathId payload w)
  /\ (forall payload,
         UserHandlers.updateSensitiveData pathId payload request w
         = UserRepository.updateSensitive pathId payload w)
  /\ UserHandlers.getUser pathId request w
     = UserService.getUser pathId admin pathId w
  /\ UserHandlers.getCurrentUser request w
     = UserHandlers.getUser (userId literalContext) request w
  /\ (forall payload m,
         fst (UserHandlers.getUser pathId request w) <> Failure (ForbiddenError m)
         /\ fst (UserHandlers.updateUser pathId payload request w)
            <> Failure (ForbiddenError m))
  /\ (forall payload m,
         fst (UserHandlers.updateSensitiveData pathId payload request w)
         <> Failure (ForbiddenError m)).
Proof.
  intros Hne.
  assert (Hwith : forall (A : Type) (effect : AuthContext -> Effect.t A),
             AuthMiddleware.withAuth effect request w = effect literalContext w).
  { intros A effect. unfold AuthMiddleware.withAuth.
    destruct (AuthMiddleware.bearerOf request); [congruence | reflexivity]. }
  unfold UserHandlers.getAllUsers, UserHandlers.updateUser,
    UserHandlers.updateSensitiveData, UserHandlers.getUser,
    UserHandlers.getCurrentUser.
  rewrite !Hwith.
  split; [reflexivity |]. split; [intros payload; rewrite Hwith; reflexivity |].
  split; [intros payload; rewrite Hwith; reflexivity |].
  split; [reflexivity |]. split; [reflexivity |]. split.
  - intros payload m. rewrite Hwith. split.
    + cbn [ctx_role userId literalContext]. unfold UserService.getUser.
      cbn [RoleName_eqb andb]. unfold Effect.flatMap. rewrite findById_run.
      cbv zeta.
      destruct (engine_ok w); cbn [fst]; [| discriminate].
      destruct (filter _ (table w)) as [| row rest]; cbn [fst]; [discriminate |].
      pose proof (toUserByRole_failure row admin) as Hrow.
      destruct (UserMapper.toUserByRole row admin) as [v | e |]; cbn [fst];
        try discriminate.
      destruct Hrow as [msg ->]. discriminate.
    + cbn [ctx_role userId literalContext]. unfold UserService.updateProfile.
      cbn [RoleName_eqb andb]. rewrite update_run. cbv zeta.
      destruct (UserRepository.hasNoKeys _); simpl; [discriminate |].
      destruct (engine_ok w); simpl; discriminate.
  - intros payload m. rewrite Hwith.
    cbn [ctx_role userId literalContext]. unfold UserService.updateSensitiveData.
    cbn [RoleName_eqb negb]. rewrite updateSensitive_run. cbv zeta.
    destruct (UserRepository.hasNoKeys _); simpl; [discriminate |].
    destruct (engine_ok w); simpl; discriminate.
Qed.

End EdgeFacts.

(** X22. [requireRole] lets the session through exactly when its role is
    among the roles given, whatever the session's user id; otherwise it fails
    with a [DatabaseError] "Forbidden: insufficient role" (not a
    [ForbiddenError]).  With no role given it refuses every session.  It
    never touches the world. *)
Theorem requireRole_allows_listed_roles (roles : list RoleName)
  (session : SessionContext) (w : World) :
  (In (session_role session) roles ->
   requireRole roles session w = (Success tt, w))
  /\ (~ In (session_role session) roles ->
      requireRole roles session w
      = (Failure (DatabaseError "Forbidden: insufficient role"), w))
  /\ requireRole [] session w
     = (Failure (DatabaseError "Forbidden: insufficient role"), w).
Proof.
  unfold requireRole.
  assert (Hin : existsb (fun allowed => RoleName_eqb allowed (session_role session))
                  roles = true <-> In (session_role session) roles).
  { rewrite existsb_exists. split.
    - intros [x [Hx Heq]]. apply RoleName_eqb_eq in Heq. subst x. exact Hx.
    - intros H. exists (session_role session). split; [exact H |].
      apply RoleName_eqb_eq. reflexivity. }
  split; [| split; [| reflexivity]].
  - intros H. apply Hin in H. rewrite H. reflexivity.
  - intros H. destruct (existsb _ roles) eqn:Hex; [| reflexivity].
    exfalso. apply H, Hin. reflexivity.
Qed.

Lemma requireRole_allows_listed_roles_witness :
  requireRole [admin] {| session_userId := Some Sample.annId; session_role := admin |}
    Sample.office
  = (Success tt, Sample.office)
  /\ requireRole [admin] {| session_userId := None; session_role := user |}
       Sample.office
     = (Failure (DatabaseError "Forbidden: insufficient role"), Sample.office).
Proof.
  split.
  - apply (proj1 (requireRole_allows_listed_roles [admin]
                    {| session_userId := Some Sample.annId; session_role := admin |}
                    Sample.office)).
    left. reflexivity.
  - apply (proj1 (proj2 (requireRole_allows_listed_roles [admin]
                           {| session_userId := None; session_role := user |}
                           Sample.office))).
    intros [H | []]. discriminate.
Defined.

Lemma authMiddleware_resolves_before_app_witness :
  exists ctx w1,
    AuthMiddleware.verifyJwt (C := Sample.libraries)
      (Js.replace "Bearer " "" "Bearer s3cret.admin.bob@b.com") Sample.office
    = (Success ctx, w1)
    /\ UserService.getUser Sample.bobId (ctx_role ctx) (userId ctx) w1
       = (Success (Base {| id := Sample.bobId; email := "bob@b.com"; name := "Bob";
                           role := user; isActive := true;
                           createdAt := 2000; updatedAt := 2000 |}),
          UserRepository.record (SelectById Sample.bobId)
            (UserRepository.record (SelectByEmail "bob@b.com") Sample.office)).
Proof.
  apply (proj2 (proj2 (proj2
           (authMiddleware_resolves_before_app (C := Sample.libraries)
              (fun ctx => UserService.getUser Sample.bobId (ctx_role ctx) (userId ctx))
              "" Sample.office)))
           "Bearer s3cret.admin.bob@b.com").
  vm_compute. reflexivity.
Defined.

Lemma handlers_behind_withAuth_witness :
  UserHandlers.updateSensitiveData (C := Sample.libraries) Sample.annId
    {| patch_salary := Some None; patch_ssn := None |}
    {| authorization := Some "Bearer s3cret.user.bob@b.com" |} Sample.office
  = UserRepository.updateSensitive (C := Sample.libraries) Sample.annId
      {| patch_salary := Some None; patch_ssn := None |} Sample.office.
Proof.
  apply (handlers_behind_withAuth (C := Sample.libraries)
           {| authorization := Some "Bearer s3cret.user.bob@b.com" |}
           Sample.annId Sample.office).
  vm_compute. discriminate.
Defined.

(* ------------------------------------------------------------------ *)
(** ** What an update leaves as it was *)
(* ------------------------------------------------------------------ *)

Lemma filter_other_id (target other : string) (u : RowUpdates) (rows : list UserRow) :
  Uuid.same other target = false ->
  filter (hasId other)
    (map (fun row => if hasId target row
                     then UserRepository.applyUpdates u row else row) rows)
  = filter (hasId other) rows.
Proof.
  intros Hne. induction rows as [| row rows IH]; simpl; [reflexivity |].
  destruct (hasId target row) eqn:Htarget.
  - change (hasId other (UserRepository.applyUpdates u row)) with (hasId other row).
    assert (Hother : hasId other row = false).
    { unfold hasId in *. destruct (Uuid.same (row_id row) other) eqn:Hsame;
        [| reflexivity].
      rewrite same_sym in Hsame.
      rewrite (same_trans _ _ _ Hsame Htarget) in Hne. discriminate. }
    rewrite Hother. exact IH.
  - rewrite IH. reflexivity.
Qed.

Lemma profileUpdates_not_blank (data : UpdateUserProfile) :
  set_name (UserRepository.profileUpdates data) <> Some ""
  /\ set_email (UserRepository.profileUpdates data) <> Some "".
Proof.
  unfold UserRepository.profileUpdates. simpl.
  destruct (patch_name data) as [[| c n] |], (patch_email data) as [[| d m] |];
    simpl; split; discriminate.
Qed.

Section FrameFacts.
Context {C : Collaborators}.

(** The outcome of [getUser] is decided by the table and by whether the
    storage engine answers. *)
Lemma getUser_outcome (target : string) (r : RoleName) (uid : string) (w1 w2 : World) :
  engine_ok w1 = engine_ok w2 ->
  filter (hasId target) (table w1) = filter (hasId target) (table w2) ->
  fst (UserService.getUser target r uid w1) = fst (UserService.getUser target r uid w2).
Proof.
  intros Hok Hrows. unfold UserService.getUser.
  destruct (RoleName_eqb r user && negb (String.eqb uid target)); [reflexivity |].
  unfold Effect.flatMap. rewrite !findById_run. cbv zeta.
  rewrite Hok, Hrows.
  destruct (engine_ok w2); [| reflexivity].
  destruct (filter (hasId target) (table w2)) as [| row rest]; [reflexivity |].
  destruct (UserMapper.toUserByRole row r); reflexivity.
Qed.

(** X23. An update of one user leaves every other user as readable as
    before: for an id that is not the target's uuid, [getUser] gives the same
    outcome after [updateProfile] or [updateSensitiveData] on the target as
    it gave before, whatever the patch was and whether the update went
    through. *)
Theorem updates_leave_other_users_readable (target other : string)
  (r r' : RoleName) (uid uid' : string) (w : World) :
  Uuid.same other target = false ->
  (forall data,
      fst (UserService.getUser other r uid
             (snd (UserService.updateProfile target data r' uid' w)))
      = fst (UserService.getUser other r uid w))
  /\ (forall data,
         fst (UserService.getUser other r uid
                (snd (UserService.updateSensitiveData target data r' uid' w)))
         = fst (UserService.getUser other r uid w)).
Proof.
  intros Hne. split; intros data.
  - unfold UserService.updateProfile.
    destruct (RoleName_eqb r' user && negb (String.eqb uid' target));
      [reflexivity |].
    rewrite update_run. cbv zeta.
    destruct (UserRepository.hasNoKeys _); [reflexivity |].
    destruct (engine_ok w) eqn:Hok; cbn [snd].
    + apply getUser_outcome; [reflexivity |].
      unfold written. cbn [table]. apply filter_other_id. exact Hne.
    + apply getUser_outcome; reflexivity.
  - unfold UserService.updateSensitiveData.
    destruct (negb (RoleName_eqb r' admin)); [reflexivity |].
    rewrite updateSensitive_run. cbv zeta.
    destruct (UserRepository.hasNoKeys _); [reflexivity |].
    destruct (engine_ok w) eqn:Hok; cbn [snd].
    + apply getUser_outcome; [reflexivity |].
      unfold written. cbn [table]. apply filter_other_id. exact Hne.
    + apply getUser_outcome; reflexivity.
Qed.

(** X24. [updateProfile] never blanks a name or an email: an empty string
    in the patch is skipped like an absent field, so when no stored name or
    email is empty before the call, none is empty after it. *)
Theorem updateProfile_never_blanks (target : string) (data : UpdateUserProfile)
  (r : RoleName) (uid : string) (w : World) :
  Forall (fun row => row_name row <> "" /\ row_email row <> "") (table w) ->
  Forall (fun row => row_name row <> "" /\ row_email row <> "")
    (table (snd (UserService.updateProfile target data r uid w))).
Proof.
  intros Hbefore. unfold UserService.updateProfile.
  destruct (RoleName_eqb r user && negb (String.eqb uid target)); [exact Hbefore |].
  rewrite update_run. cbv zeta.
  destruct (UserRepository.hasNoKeys _); [exact Hbefore |].
  destruct (engine_ok w); cbn [snd]; [| exact Hbefore].
  unfold written. cbn [table]. apply Forall_forall. intros row Hin.
  apply in_map_iff in Hin. destruct Hin as [old [Hrow Hold]].
  rewrite Forall_forall in Hbefore. specialize (Hbefore old Hold).
  destruct (hasId target old); [| subst row; exact Hbefore].
  subst row. destruct (profileUpdates_not_blank data) as [Hn Hm].
  destruct Hbefore as [Bn Bm].
  unfold UserRepository.applyUpdates, UserRepository.withUpdatedAt.
  cbn [row_name row_email set_name set_email].
  split.
  - destruct (set_name (UserRepository.profileUpdates data)) as [v |];
      [congruence | exact Bn].
  - destruct (set_email (UserRepository.profileUpdates data)) as [v |];
      [congruence | exact Bm].
Qed.

End FrameFacts.

Lemma updates_leave_other_users_readable_witness :
  fst (UserService.getUser Sample.annId admin Sample.annId
         (snd (UserService.updateProfile (C := Sample.libraries)
                 "7C9E6679-7425-40DE-944B-E07FC1F90AE7"
                 {| patch_name := None; patch_email := Some "not-an-email" |}
                 user "7C9E6679-7425-40DE-944B-E07FC1F90AE7" Sample.office)))
  = fst (UserService.getUser Sample.annId admin Sample.annId Sample.office).
Proof.
  apply (proj1 (updates_leave_other_users_readable (C := Sample.libraries)
                  "7C9E6679-7425-40DE-944B-E07FC1F90AE7" Sample.annId admin user
                  Sample.annId "7C9E6679-7425-40DE-944B-E07FC1F90AE7"
                  Sample.office eq_refl)).
Defined.

Lemma updateProfile_never_blanks_witness :
  Forall (fun row => row_name row <> "" /\ row_email row <> "")
    (table (snd (UserService.updateProfile (C := Sample.libraries) Sample.bobId
                   {| patch_name := Some ""; patch_email := Some "rob@b.com" |}
                   user Sample.bobId Sample.office))).
Proof.
  apply (updateProfile_never_blanks (C := Sample.libraries)).
  repeat constructor; discriminate.
Defined.
